(** * react-webllm: the provider's lifecycle layer

    A shallow embedding of [src/provider.tsx] and [src/types.ts]: the
    capability probe [checkWebLLMSupport] and the three callbacks
    [initialize], [generate] and [resetChat] that [LLMProvider] hands to its
    consumers, together with the React state cells they read and write.

    Conventions of the embedding.
    - A TypeScript [number] is a rational ([Q]).  The code only stores,
      forwards and (in the properties below) compares numbers.
    - The five [useState] cells are the fields of [Store]; a [setX] call is a
      field update.  A callback reads the cells its closure captured:
      [initialize_closure], [generate_closure], [resetChat_closure] and
      [mount_effect_closure] take the captured cells as arguments, and
      [initialize], [generate], [resetChat] and [mount_effect] are the
      callbacks of the latest render, whose captured cells are the stored
      ones.  Calls do not overlap.
    - The WebLLM engine and the browser are collaborators outside the
      repository.  What they answer during one call of a callback is the
      record [Env]; a sequence of calls may use a different [Env] each time.
    - An [async] function is a computation [M A]: it ends with a value or
      with a thrown value (a rejected promise), and the state updates made
      before a [throw] persist.
    - [trace] is a ghost log: every engine entry point that is invoked,
      every [setInitProgress] and every [console] line is appended to it. *)

From Stdlib Require Import String List Bool Arith QArith Lia.
Import ListNotations.
Local Open Scope string_scope.
Local Open Scope list_scope.

(** ** Data model ([src/types.ts]) *)

Inductive WebLLMModelOption : Type :=
| Llama_3_1_8B_Instruct_q4f32_1_MLC.

Inductive InitStatus : Type :=
| initializing
| success
| error
| not_started.

Record WebLLMInitProgress : Type := mkInitProgress {
  progress : Q;
  text : string;
  status : InitStatus
}.

Inductive Role : Type :=
| user
| assistant
| system
| function.

Record ChatMessage : Type := mkChatMessage {
  role : Role;
  content : string
}.

Record GenerationOptions : Type := mkGenerationOptions {
  temperature : option Q;
  max_tokens : option Q;
  top_p : option Q;
  top_k : option Q;
  repetition_penalty : option Q;
  stop : option (list string)
}.

Inductive GenerationStatus : Type :=
| gen_success
| gen_error.

Record GenerationResponse : Type := mkGenerationResponse {
  gen_text : string;
  gen_status : GenerationStatus;
  gen_error_message : option string
}.

Record SystemInfo : Type := mkSystemInfo {
  si_supported : bool;
  webGPUAvailable : bool;
  webGLAvailable : bool;
  sharedArrayBufferAvailable : bool;
  gpuVendor : option string
}.

(** ** The collaborators: thrown values, the engine, the browser *)

(** A thrown JavaScript value: an [Error] instance with its [message], or
    any other value (a string, a number, an object). *)
Inductive Thrown : Type :=
| ErrorObject (message : string)
| NonError (shown : string).

Inductive Outcome (A : Type) : Type :=
| Ret (a : A)
| Throw (t : Thrown).
Arguments Ret {A} a.
Arguments Throw {A} t.

(** An [MLCEngine] handle; the provider never looks inside it. *)
Definition MLCEngine : Type := nat.

Record InitProgressReport : Type := mkReport {
  report_progress : Q;
  report_text : string
}.

(** The object literal passed to [engine.chat.completions.create]: it has
    exactly these five properties.  A property whose value is [undefined] is
    [None]. *)
Record ChatCompletionRequest : Type := mkRequest {
  req_messages : list ChatMessage;
  req_temperature : option Q;
  req_max_tokens : option Q;
  req_top_p : option Q;
  req_stop : option (list string)
}.

(** One element of [response.choices]; [message.content] is a string or
    [null]. *)
Record Choice : Type := mkChoice {
  message_content : option string
}.

Definition ChatCompletion : Type := list Choice.

(** What [canvas.getContext] does for the two context names: each call
    returns a truthy or falsy value, or throws. *)
Record Canvas : Type := mkCanvas {
  getContext_webgl : Outcome bool;
  getContext_webgl2 : Outcome bool
}.

(** The answers of the browser and of the engine during one call. *)
Record Env : Type := mkEnv {
  (* typeof WebAssembly === 'object' *)
  typeof_WebAssembly_is_object : bool;
  (* 'gpu' in navigator *)
  gpu_in_navigator : Outcome bool;
  (* document.createElement('canvas') *)
  createElement_canvas : Outcome Canvas;
  (* typeof SharedArrayBuffer === 'function' *)
  typeof_SharedArrayBuffer_is_function : bool;
  (* webllm.CreateMLCEngine: the reports it hands to the progress callback,
     then the engine it resolves with or the value it rejects with *)
  CreateMLCEngine : WebLLMModelOption -> list InitProgressReport * Outcome MLCEngine;
  (* engine.getGPUVendor() *)
  getGPUVendor : MLCEngine -> Outcome string;
  (* engine.chat.completions.create(request) *)
  completions_create : MLCEngine -> ChatCompletionRequest -> Outcome ChatCompletion;
  (* engine.resetChat() *)
  engine_resetChat : MLCEngine -> Outcome unit
}.

(** ** The ghost log *)

Inductive ConsoleLevel : Type :=
| console_error
| console_log
| console_warn.

Inductive Event : Type :=
| EvCreateMLCEngine (model : WebLLMModelOption)
| EvSessionCreated (e : MLCEngine)
| EvGetGPUVendor (e : MLCEngine)
| EvCompletionsCreate (e : MLCEngine) (request : ChatCompletionRequest)
| EvResetChat (e : MLCEngine)
| EvSetInitProgress (p : WebLLMInitProgress)
| EvConsole (level : ConsoleLevel) (label : string) (t : Thrown).

(** ** The provider's state ([useState] cells of [LLMProvider]) *)

Record Store : Type := mkStore {
  engine : option MLCEngine;
  initialized : bool;
  supported : bool;
  initProgress : WebLLMInitProgress;
  systemInfo : SystemInfo;
  trace : list Event
}.

Definition initial_store : Store :=
  {| engine := None;
     initialized := false;
     supported := false;
     initProgress := {| progress := 0; text := "Not initialized"; status := not_started |};
     systemInfo := {| si_supported := false;
                      webGPUAvailable := false;
                      webGLAvailable := false;
                      sharedArrayBufferAvailable := false;
                      gpuVendor := None |};
     trace := [] |}.

(** ** Computations: state, exceptions and the log *)

Definition M (A : Type) : Type := Store -> Outcome A * Store.

Definition ret {A} (a : A) : M A := fun st => (Ret a, st).

Definition throw {A} (t : Thrown) : M A := fun st => (Throw t, st).

Definition bind {A B} (m : M A) (k : A -> M B) : M B :=
  fun st =>
    match m st with
    | (Ret a, st') => k a st'
    | (Throw t, st') => (Throw t, st')
    end.

(** [try { body } catch (error) { handler }] *)
Definition try_catch {A} (body : M A) (handler : Thrown -> M A) : M A :=
  fun st =>
    match body st with
    | (Ret a, st') => (Ret a, st')
    | (Throw t, st') => handler t st'
    end.

(** [await] of a collaborator's answer *)
Definition await {A} (o : Outcome A) : M A := fun st => (o, st).

Declare Scope js_scope.
Delimit Scope js_scope with js.
Notation "x <- m ;; k" := (bind m (fun x => k))
  (at level 61, m at next level, right associativity) : js_scope.
Notation "m ;; k" := (bind m (fun _ => k))
  (at level 61, right associativity) : js_scope.
Local Open Scope js_scope.

Definition emit (ev : Event) : M unit :=
  fun st =>
    (Ret tt,
     {| engine := engine st; initialized := initialized st;
        supported := supported st; initProgress := initProgress st;
        systemInfo := systemInfo st; trace := trace st ++ [ev] |}).

Definition setEngine (e : option MLCEngine) : M unit :=
  fun st =>
    (Ret tt,
     {| engine := e; initialized := initialized st;
        supported := supported st; initProgress := initProgress st;
        systemInfo := systemInfo st; trace := trace st |}).

Definition setInitialized (b : bool) : M unit :=
  fun st =>
    (Ret tt,
     {| engine := engine st; initialized := b;
        supported := supported st; initProgress := initProgress st;
        systemInfo := systemInfo st; trace := trace st |}).

Definition setSupported (b : bool) : M unit :=
  fun st =>
    (Ret tt,
     {| engine := engine st; initialized := initialized st;
        supported := b; initProgress := initProgress st;
        systemInfo := systemInfo st; trace := trace st |}).

Definition setInitProgress (p : WebLLMInitProgress) : M unit :=
  fun st =>
    (Ret tt,
     {| engine := engine st; initialized := initialized st;
        supported := supported st; initProgress := p;
        systemInfo := systemInfo st;
        trace := trace st ++ [EvSetInitProgress p] |}).

(** [setSystemInfo] with an updater function; [setSystemInfo(v)] is
    [setSystemInfo (fun _ => v)]. *)
Definition setSystemInfo (f : SystemInfo -> SystemInfo) : M unit :=
  fun st =>
    (Ret tt,
     {| engine := engine st; initialized := initialized st;
        supported := supported st; initProgress := initProgress st;
        systemInfo := f (systemInfo st); trace := trace st |}).

Definition console (level : ConsoleLevel) (label : string) (t : Thrown) : M unit :=
  emit (EvConsole level label t).

(** [{ ...prev, supported: b }] *)
Definition with_supported (b : bool) (prev : SystemInfo) : SystemInfo :=
  {| si_supported := b;
     webGPUAvailable := webGPUAvailable prev;
     webGLAvailable := webGLAvailable prev;
     sharedArrayBufferAvailable := sharedArrayBufferAvailable prev;
     gpuVendor := gpuVendor prev |}.

(** [{ ...prev, gpuVendor: vendor }] *)
Definition with_gpuVendor (vendor : string) (prev : SystemInfo) : SystemInfo :=
  {| si_supported := si_supported prev;
     webGPUAvailable := webGPUAvailable prev;
     webGLAvailable := webGLAvailable prev;
     sharedArrayBufferAvailable := sharedArrayBufferAvailable prev;
     gpuVendor := Some vendor |}.

(** ** [checkWebLLMSupport] (provider.tsx, lines 53-88) *)

(** [!!(canvas.getContext('webgl') || canvas.getContext('webgl2'))]: the
    second call is made only when the first answer is falsy. *)
Definition probe_webgl (canvas : Canvas) : M bool :=
  c1 <- await (getContext_webgl canvas) ;;
  if c1 then ret true else await (getContext_webgl2 canvas).

Definition checkWebLLMSupport (env : Env) : M bool :=
  if negb (typeof_WebAssembly_is_object env) then
    setSupported false ;;
    setSystemInfo (with_supported false) ;;
    ret false
  else
    try_catch
      (hasWebGPU <- await (gpu_in_navigator env) ;;
       canvas <- await (createElement_canvas env) ;;
       hasWebGL <- probe_webgl canvas ;;
       let isSupported := hasWebGL || hasWebGPU in
       setSupported isSupported ;;
       setSystemInfo (fun _ =>
         {| si_supported := isSupported;
            webGPUAvailable := hasWebGPU;
            webGLAvailable := hasWebGL;
            sharedArrayBufferAvailable := typeof_SharedArrayBuffer_is_function env;
            gpuVendor := None |}) ;;
       ret isSupported)
      (fun err =>
         console console_error "Error checking WebLLM support:" err ;;
         setSupported false ;;
         setSystemInfo (with_supported false) ;;
         ret false).

(** ** [initialize] (provider.tsx, lines 90-155) *)

Definition progressCallback (report : InitProgressReport) : M unit :=
  setInitProgress
    {| progress := report_progress report;
       text := report_text report;
       status := initializing |}.

Fixpoint for_each {A} (f : A -> M unit) (l : list A) : M unit :=
  match l with
  | [] => ret tt
  | x :: l' => f x ;; for_each f l'
  end.

(** [await webllm.CreateMLCEngine(modelOption, { initProgressCallback })]:
    the engine runs the callback on each of its reports, then resolves or
    rejects. *)
Definition call_CreateMLCEngine (env : Env) (modelOption : WebLLMModelOption)
    (initProgressCallback : InitProgressReport -> M unit) : M MLCEngine :=
  emit (EvCreateMLCEngine modelOption) ;;
  for_each initProgressCallback (fst (CreateMLCEngine env modelOption)) ;;
  mlcEngine <- await (snd (CreateMLCEngine env modelOption)) ;;
  emit (EvSessionCreated mlcEngine) ;;
  ret mlcEngine.

Definition call_getGPUVendor (env : Env) (e : MLCEngine) : M string :=
  emit (EvGetGPUVendor e) ;;
  await (getGPUVendor env e).

(** [error instanceof Error ? error.message : fallback] *)
Definition message_or (fallback : string) (t : Thrown) : string :=
  match t with
  | ErrorObject m => m
  | NonError _ => fallback
  end.

(** Truthiness of the [engine] cell ([MLCEngine | null]). *)
Definition is_set {A} (o : option A) : bool :=
  match o with
  | Some _ => true
  | None => false
  end.

(** The body of [initialize] for the values of [initialized], [engine] and
    [supported] that the callback captured when it was created
    ([useCallback] dependencies, line 154). *)
Definition initialize_closure (c_initialized : bool) (c_engine : option MLCEngine)
    (c_supported : bool) (env : Env) (modelOption : WebLLMModelOption) : M bool :=
  if c_initialized && is_set c_engine then ret true
  else
    probe_ok <-
      (if negb c_supported then checkWebLLMSupport env else ret true) ;;
    if negb probe_ok then
      setInitProgress
        {| progress := 0;
           text := "WebLLM is not supported in this browser";
           status := error |} ;;
      ret false
    else
      setInitProgress
        {| progress := 0;
           text := "Initializing WebLLM...";
           status := initializing |} ;;
      try_catch
        (mlcEngine <- call_CreateMLCEngine env modelOption progressCallback ;;
         setEngine (Some mlcEngine) ;;
         setInitialized true ;;
         setInitProgress
           {| progress := 1;
              text := "WebLLM initialized successfully";
              status := success |} ;;
         try_catch
           (vendor <- call_getGPUVendor env mlcEngine ;;
            setSystemInfo (with_gpuVendor vendor))
           (fun e => console console_log "Could not get GPU vendor:" e) ;;
         ret true)
        (fun err =>
           console console_error "Failed to initialize WebLLM:" err ;;
           setInitProgress
             {| progress := 0;
                text := "Failed to initialize WebLLM: "
                          ++ message_or "Unknown error" err;
                status := error |} ;;
           ret false).

(** [initialize] as a consumer calls it: through the callback of the latest
    render, whose captured cells are the stored ones. *)
Definition initialize (env : Env) (modelOption : WebLLMModelOption) : M bool :=
  fun st0 =>
    initialize_closure (initialized st0) (engine st0) (supported st0)
      env modelOption st0.

(** ** [generate] (provider.tsx, lines 171-215) *)

Definition system_message : ChatMessage :=
  {| role := system; content := "You are a helpful AI assistant." |}.

(** [0.7] *)
Definition default_temperature : Q := 7 # 10.

(** [x ?? d] *)
Definition nullish {A} (x : option A) (d : A) : A :=
  match x with
  | Some v => v
  | None => d
  end.

(** [s || ''] on [string | null]: the empty string is falsy as well. *)
Definition or_empty (s : option string) : string :=
  match s with
  | Some v => v
  | None => ""
  end.

(** Message of the [TypeError] raised by [response.choices[0].message] when
    [choices] is empty (the wording is the JavaScript engine's). *)
Definition undefined_access_message : string :=
  "Cannot read properties of undefined (reading 'message')".

(** [response.choices[0].message.content] *)
Definition first_choice_content (response : ChatCompletion) : M (option string) :=
  match response with
  | c :: _ => ret (message_content c)
  | [] => throw (ErrorObject undefined_access_message)
  end.

Definition build_request (prompt : string) (options : GenerationOptions)
    : ChatCompletionRequest :=
  {| req_messages := [system_message; {| role := user; content := prompt |}];
     req_temperature := Some (nullish (temperature options) default_temperature);
     req_max_tokens := max_tokens options;
     req_top_p := top_p options;
     req_stop := stop options |}.

Definition call_completions_create (env : Env) (e : MLCEngine)
    (request : ChatCompletionRequest) : M ChatCompletion :=
  emit (EvCompletionsCreate e request) ;;
  await (completions_create env e request).

Definition not_initialized_response : GenerationResponse :=
  {| gen_text := "";
     gen_status := gen_error;
     gen_error_message := Some "WebLLM not initialized. Call initialize() first." |}.

Definition generate (env : Env) (prompt : string) (options : GenerationOptions)
    : M GenerationResponse :=
  fun st0 =>
  match engine st0 with
  | None => ret not_initialized_response st0
  | Some e =>
    if negb (initialized st0) then ret not_initialized_response st0
    else
      try_catch
        (response <- call_completions_create env e (build_request prompt options) ;;
         c <- first_choice_content response ;;
         ret {| gen_text := or_empty c;
                gen_status := gen_success;
                gen_error_message := None |})
        (fun err =>
           console console_error "Error generating text with WebLLM:" err ;;
           ret {| gen_text := "";
                  gen_status := gen_error;
                  gen_error_message :=
                    Some (message_or "Unknown error generating text" err) |}) st0
  end.

(** ** [resetChat] (provider.tsx, lines 217-225) *)

Definition call_resetChat (env : Env) (e : MLCEngine) : M unit :=
  emit (EvResetChat e) ;;
  await (engine_resetChat env e).

Definition resetChat (env : Env) : M unit :=
  fun st0 =>
  match engine st0 with
  | None => ret tt st0
  | Some e =>
    try_catch
      (call_resetChat env e)
      (fun err => console console_error "Error resetting chat:" err) st0
  end.

(** ** The mount effect (provider.tsx, lines 157-169)

    [init] awaits the probe and then, when [autoInitialize] is set and the
    captured [supported] cell is true, starts the [initialize] of the same
    render (its captured cells are those the effect started with); a
    rejection of that promise is only logged. *)
Definition mount_effect (env : Env) (autoInitialize : bool)
    (defaultModel : WebLLMModelOption) : M unit :=
  fun st0 =>
  (checkWebLLMSupport env ;;
   if autoInitialize && supported st0 then
     try_catch
       (initialize_closure (initialized st0) (engine st0) (supported st0)
          env defaultModel ;;
        ret tt)
       (fun err => console console_warn "Auto-initialization failed:" err)
   else ret tt) st0.

(** ** Runs of the provider *)

Inductive Op : Type :=
| OpCheckSupport
| OpInitialize (modelOption : WebLLMModelOption)
| OpGenerate (prompt : string) (options : GenerationOptions)
| OpResetChat
| OpMountEffect (autoInitialize : bool) (defaultModel : WebLLMModelOption).

(** The store after one operation. *)
Definition exec (env : Env) (op : Op) (st : Store) : Store :=
  match op with
  | OpCheckSupport => snd (checkWebLLMSupport env st)
  | OpInitialize m => snd (initialize env m st)
  | OpGenerate prompt options => snd (generate env prompt options st)
  | OpResetChat => snd (resetChat env st)
  | OpMountEffect a m => snd (mount_effect env a m st)
  end.

(** The stores a provider can be in when its operations run one after the
    other, every one through the callback of the latest render (so that the
    cells it captured are the stored ones), and every call is answered by an
    environment that satisfies [ok].  Calls through the callback of an
    earlier render are the subject of [exec_closure] and
    [reachable_any_callback] below. *)
Inductive reachable (ok : Env -> Prop) : Store -> Prop :=
| reach_initial : reachable ok initial_store
| reach_step env op st :
    ok env -> reachable ok st -> reachable ok (exec env op st).

Definition any_env (_ : Env) : Prop := True.

Definition no_wasm (env : Env) : Prop := typeof_WebAssembly_is_object env = false.

(** Ready: a session is stored and [initialized] is set. *)
Definition Ready (st : Store) : Prop :=
  initialized st = true /\ engine st <> None.

(** The cells other than the log. *)
Definition same_cells (a b : Store) : Prop :=
  engine a = engine b /\ initialized a = initialized b /\
  supported a = supported b /\ initProgress a = initProgress b /\
  systemInfo a = systemInfo b.

(** ** Observations on the log *)

Definition is_create (ev : Event) : bool :=
  match ev with
  | EvCreateMLCEngine _ => true
  | _ => false
  end.

Definition is_completion (ev : Event) : bool :=
  match ev with
  | EvCompletionsCreate _ _ => true
  | _ => false
  end.

(** Number of invocations of the session-creation entry point. *)
Definition create_calls (tr : list Event) : nat :=
  List.length (List.filter is_create tr).

Definition completion_calls (tr : list Event) : nat :=
  List.length (List.filter is_completion tr).

(** The engine resolved a session creation at least once. *)
Definition session_created (tr : list Event) : Prop :=
  exists e, In (EvSessionCreated e) tr.

(** The [progress] values of the successive [InitProgress] states whose
    status is [initializing]. *)
Fixpoint initializing_progress (tr : list Event) : list Q :=
  match tr with
  | [] => []
  | EvSetInitProgress p :: tr' =>
      match status p with
      | initializing => progress p :: initializing_progress tr'
      | _ => initializing_progress tr'
      end
  | _ :: tr' => initializing_progress tr'
  end.

(** A list of numbers never decreases from one element to the next. *)
Fixpoint non_decreasing (l : list Q) : Prop :=
  match l with
  | [] => True
  | x :: l' =>
      match l' with
      | [] => True
      | y :: _ => (x <= y)%Q
      end /\ non_decreasing l'
  end.

(** ** Example environments *)

Definition canvas_with_webgl : Canvas :=
  {| getContext_webgl := Ret true; getContext_webgl2 := Ret true |}.

(** A browser with WebAssembly, WebGPU and WebGL whose engine hands the given
    reports to the progress callback and then ends session creation with
    [created]; completions answer [completion]. *)
Definition browser (reports : list InitProgressReport) (created : Outcome MLCEngine)
    (completion : Outcome ChatCompletion) : Env :=
  {| typeof_WebAssembly_is_object := true;
     gpu_in_navigator := Ret true;
     createElement_canvas := Ret canvas_with_webgl;
     typeof_SharedArrayBuffer_is_function := true;
     CreateMLCEngine := fun _ => (reports, created);
     getGPUVendor := fun _ => Ret "nvidia";
     completions_create := fun _ _ => completion;
     engine_resetChat := fun _ => Ret tt |}.

(** The same browser without WebAssembly. *)
Definition browser_without_wasm : Env :=
  {| typeof_WebAssembly_is_object := false;
     gpu_in_navigator := Ret true;
     createElement_canvas := Ret canvas_with_webgl;
     typeof_SharedArrayBuffer_is_function := true;
     CreateMLCEngine := fun _ => ([], Ret 1%nat);
     getGPUVendor := fun _ => Ret "nvidia";
     completions_create := fun _ _ => Ret [ {| message_content := Some "hello" |} ];
     engine_resetChat := fun _ => Ret tt |}.

Definition report_03 : InitProgressReport :=
  {| report_progress := 3 # 10; report_text := "Fetching weights" |}.

Definition report_09 : InitProgressReport :=
  {| report_progress := 9 # 10; report_text := "Compiling shaders" |}.

Definition hello : Outcome ChatCompletion :=
  Ret [ {| message_content := Some "hello" |} ].

(** The engine reports 0.3, then 0.9, then resolves. *)
Definition env_resolves : Env := browser [report_03; report_09] (Ret 1%nat) hello.

(** The engine reports 0.3, then rejects with [new Error("OOM")]. *)
Definition env_oom : Env := browser [report_03] (Throw (ErrorObject "OOM")) hello.

(** The engine reports 0.9, then 0.3, then resolves. *)
Definition env_backwards : Env := browser [report_09; report_03] (Ret 1%nat) hello.

(** The engine resolves a completion whose first choice has [content: null]. *)
Definition env_null_content : Env :=
  browser [] (Ret 1%nat) (Ret [ {| message_content := None |} ]).

(** Completions reject with [new Error("context overflow")]. *)
Definition env_completion_fails : Env :=
  browser [] (Ret 1%nat) (Throw (ErrorObject "context overflow")).

Definition no_options : GenerationOptions :=
  {| temperature := None; max_tokens := None; top_p := None;
     top_k := None; repetition_penalty := None; stop := None |}.

(** [{ top_k: 40, repetition_penalty: 1.1 }] *)
Definition sampling_options : GenerationOptions :=
  {| temperature := None; max_tokens := None; top_p := None;
     top_k := Some (40 # 1); repetition_penalty := Some (11 # 10); stop := None |}.

(** The store after a successful [initialize] in [env_resolves]. *)
Definition ready_store : Store :=
  snd (initialize env_resolves Llama_3_1_8B_Instruct_q4f32_1_MLC initial_store).

(** ** Names for the [InitProgress] values the code writes *)

(** What [progressCallback] stores for a report. *)
Definition relayed (r : InitProgressReport) : WebLLMInitProgress :=
  {| progress := report_progress r; text := report_text r; status := initializing |}.

Definition starting_progress : WebLLMInitProgress :=
  {| progress := 0; text := "Initializing WebLLM..."; status := initializing |}.

Definition unsupported_progress : WebLLMInitProgress :=
  {| progress := 0; text := "WebLLM is not supported in this browser"; status := error |}.

Definition done_progress : WebLLMInitProgress :=
  {| progress := 1; text := "WebLLM initialized successfully"; status := success |}.

Definition failed_progress (t : Thrown) : WebLLMInitProgress :=
  {| progress := 0;
     text := "Failed to initialize WebLLM: " ++ message_or "Unknown error" t;
     status := error |}.

(** The log of one engine attempt up to the end of session creation. *)
Definition attempt_events (m : WebLLMModelOption) (reports : list InitProgressReport)
    : list Event :=
  EvSetInitProgress starting_progress :: EvCreateMLCEngine m
    :: map (fun r => EvSetInitProgress (relayed r)) reports.

(** The log of the best-effort vendor query. *)
Definition vendor_events (e : MLCEngine) (answer : Outcome string) : list Event :=
  EvGetGPUVendor e ::
  match answer with
  | Ret _ => []
  | Throw t => [EvConsole console_log "Could not get GPU vendor:" t]
  end.

Definition vendor_info (answer : Outcome string) (prev : SystemInfo) : SystemInfo :=
  match answer with
  | Ret vendor => with_gpuVendor vendor prev
  | Throw _ => prev
  end.

Definition is_console (ev : Event) : bool :=
  match ev with
  | EvConsole _ _ _ => true
  | _ => false
  end.

(** A log that holds console lines only. *)
Definition quiet (evs : list Event) : Prop :=
  forall ev, In ev evs -> is_console ev = true.

(** [st'] extends the log of [st]. *)
Definition extends (st st' : Store) : Prop :=
  exists evs, trace st' = trace st ++ evs.

(** The accelerator vendor is only filled in behind a created session. *)
Definition vendor_inv (st : Store) : Prop :=
  gpuVendor (systemInfo st) <> None -> session_created (trace st).

(** What holds of every store when WebAssembly is absent. *)
Definition never_supported (st : Store) : Prop :=
  supported st = false /\ engine st = None /\ initialized st = false /\
  create_calls (trace st) = 0%nat.

(** A response carries a text or an error message, not both. *)
Definition well_formed_response (r : GenerationResponse) : Prop :=
  match gen_status r with
  | gen_success => gen_error_message r = None
  | gen_error => gen_text r = "" /\ gen_error_message r <> None
  end.

(** What one run of the probe leaves behind: it returns [b], writes only
    [supported] and [systemInfo], logs console lines only, and never turns
    an empty [gpuVendor] into a vendor. *)
Definition probe_post (env : Env) (st : Store) (b : bool) (st' : Store) : Prop :=
  engine st' = engine st /\ initialized st' = initialized st /\
  supported st' = b /\ initProgress st' = initProgress st /\
  (exists evs, trace st' = trace st ++ evs /\ quiet evs) /\
  (gpuVendor (systemInfo st') = None \/
   gpuVendor (systemInfo st') = gpuVendor (systemInfo st)) /\
  (typeof_WebAssembly_is_object env = false -> b = false /\ trace st' = trace st).

(** The store when an engine attempt that started in [st] has ended with
    the engine resolving [e]. *)
Definition store_after_success (env : Env) (m : WebLLMModelOption) (e : MLCEngine)
    (st : Store) : Store :=
  {| engine := Some e;
     initialized := true;
     supported := supported st;
     initProgress := done_progress;
     systemInfo := vendor_info (getGPUVendor env e) (systemInfo st);
     trace := trace st ++ attempt_events m (fst (CreateMLCEngine env m))
                ++ EvSessionCreated e :: EvSetInitProgress done_progress
                     :: vendor_events e (getGPUVendor env e) |}.

(** The store when an engine attempt that started in [st] has ended with
    the engine rejecting with [t]. *)
Definition store_after_failure (env : Env) (m : WebLLMModelOption) (t : Thrown)
    (st : Store) : Store :=
  {| engine := engine st;
     initialized := initialized st;
     supported := supported st;
     initProgress := failed_progress t;
     systemInfo := systemInfo st;
     trace := trace st ++ attempt_events m (fst (CreateMLCEngine env m))
                ++ [EvConsole console_error "Failed to initialize WebLLM:" t;
                    EvSetInitProgress (failed_progress t)] |}.

(** The store when the probe has said no. *)
Definition store_after_unsupported (st : Store) : Store :=
  {| engine := engine st;
     initialized := initialized st;
     supported := supported st;
     initProgress := unsupported_progress;
     systemInfo := systemInfo st;
     trace := trace st ++ [EvSetInitProgress unsupported_progress] |}.

(** What the optional probe at the head of [initialize] may have changed
    between [st] and [st1]. *)
Definition probe_frame (st st1 : Store) : Prop :=
  engine st1 = engine st /\ initialized st1 = initialized st /\
  initProgress st1 = initProgress st /\
  (exists evs, trace st1 = trace st ++ evs /\ quiet evs) /\
  (gpuVendor (systemInfo st1) = None \/
   gpuVendor (systemInfo st1) = gpuVendor (systemInfo st)).

(** The result of [initialize] once the probe has answered [b] and left
    [st1]. *)
Definition after_probe (env : Env) (m : WebLLMModelOption) (b : bool) (st1 : Store)
    : Outcome bool * Store :=
  if b then
    match snd (CreateMLCEngine env m) with
    | Ret e => (Ret true, store_after_success env m e st1)
    | Throw t => (Ret false, store_after_failure env m t st1)
    end
  else (Ret false, store_after_unsupported st1).

(** [st] with more lines in its log. *)
Definition with_events (st : Store) (evs : list Event) : Store :=
  {| engine := engine st;
     initialized := initialized st;
     supported := supported st;
     initProgress := initProgress st;
     systemInfo := systemInfo st;
     trace := trace st ++ evs |}.

(** The value [generate]'s [catch] block receives, if any: the rejection of
    the completion, or the [TypeError] of reading the first choice of an
    empty list. *)
Definition completion_failure (answer : Outcome ChatCompletion) : option Thrown :=
  match answer with
  | Ret (_ :: _) => None
  | Ret [] => Some (ErrorObject undefined_access_message)
  | Throw t => Some t
  end.

(** The response [generate] builds from the engine's answer. *)
Definition response_of (answer : Outcome ChatCompletion) : GenerationResponse :=
  match answer with
  | Ret (c :: _) =>
      {| gen_text := or_empty (message_content c);
         gen_status := gen_success;
         gen_error_message := None |}
  | Ret [] =>
      {| gen_text := "";
         gen_status := gen_error;
         gen_error_message := Some undefined_access_message |}
  | Throw t =>
      {| gen_text := "";
         gen_status := gen_error;
         gen_error_message := Some (message_or "Unknown error generating text" t) |}
  end.

Definition failure_events (label : string) (failure : option Thrown) : list Event :=
  match failure with
  | Some t => [EvConsole console_error label t]
  | None => []
  end.

(** The session cells are kept, the log grows, and [gpuVendor] is kept or
    cleared. *)
Definition frame (st st' : Store) : Prop :=
  engine st' = engine st /\ initialized st' = initialized st /\
  (gpuVendor (systemInfo st') = None \/
   gpuVendor (systemInfo st') = gpuVendor (systemInfo st)) /\
  extends st st'.

(** One operation either keeps the session cells or ends in the store of a
    successful engine attempt. *)
Definition step (st st' : Store) : Prop :=
  frame st st' \/
  exists st1 env m e, frame st st1 /\ st' = store_after_success env m e st1.


(** A stored session was created by the engine. *)
Definition engine_inv (st : Store) : Prop :=
  engine st <> None -> session_created (trace st).

(** The log lines that [st'] has and [st] has not. *)
Definition new_events (st st' : Store) : list Event :=
  skipn (List.length (trace st)) (trace st').

(** What [engine.resetChat()] rejected with, if it did. *)
Definition reset_failure (answer : Outcome unit) : option Thrown :=
  match answer with
  | Ret _ => None
  | Throw t => Some t
  end.

(** ** Further observations, for the properties beyond the claims *)

Definition is_session_created (ev : Event) : bool :=
  match ev with
  | EvSessionCreated _ => true
  | _ => false
  end.

(** Number of session creations that the engine resolved. *)
Definition sessions (tr : list Event) : nat :=
  List.length (List.filter is_session_created tr).

(** The [InitProgress] the provider is constructed with. *)
Definition initial_progress : WebLLMInitProgress :=
  {| progress := 0; text := "Not initialized"; status := not_started |}.

(** The [InitProgress] values a provider without a session can show between
    two calls. *)
Definition idle_progress (p : WebLLMInitProgress) : Prop :=
  p = initial_progress \/ p = unsupported_progress \/
  exists t, p = failed_progress t.

(** What holds of the provider between two calls: the two copies of the
    support verdict agree, and either there is no session (none was ever
    created, no vendor is recorded, the progress is idle) or there is one
    (created once, progress done). *)
Definition settled (st : Store) : Prop :=
  supported st = si_supported (systemInfo st) /\
  ((engine st = None /\ initialized st = false /\
    sessions (trace st) = 0%nat /\
    gpuVendor (systemInfo st) = None /\
    idle_progress (initProgress st)) \/
   (engine st <> None /\ initialized st = true /\
    sessions (trace st) = 1%nat /\
    initProgress st = done_progress)).

(** Some browser facility throws while the probe runs. *)
Definition probe_throws (env : Env) (t : Thrown) : Prop :=
  gpu_in_navigator env = Throw t \/
  (exists g, gpu_in_navigator env = Ret g /\
     (createElement_canvas env = Throw t \/
      exists c, createElement_canvas env = Ret c /\
        (getContext_webgl c = Throw t \/
         (getContext_webgl c = Ret false /\ getContext_webgl2 c = Throw t)))).


(** ** Further example environments *)

(** A browser with WebAssembly but neither WebGPU nor WebGL. *)
Definition browser_without_graphics : Env :=
  {| typeof_WebAssembly_is_object := true;
     gpu_in_navigator := Ret false;
     createElement_canvas :=
       Ret {| getContext_webgl := Ret false; getContext_webgl2 := Ret false |};
     typeof_SharedArrayBuffer_is_function := true;
     CreateMLCEngine := fun _ => ([], Ret 1%nat);
     getGPUVendor := fun _ => Ret "nvidia";
     completions_create := fun _ _ => hello;
     engine_resetChat := fun _ => Ret tt |}.

(** A browser whose [document.createElement] throws. *)
Definition browser_without_document : Env :=
  {| typeof_WebAssembly_is_object := true;
     gpu_in_navigator := Ret true;
     createElement_canvas := Throw (ErrorObject "document is not defined");
     typeof_SharedArrayBuffer_is_function := false;
     CreateMLCEngine := fun _ => ([], Ret 1%nat);
     getGPUVendor := fun _ => Ret "nvidia";
     completions_create := fun _ _ => hello;
     engine_resetChat := fun _ => Ret tt |}.

(** WebGL answers, and [getContext('webgl2')] would throw if it were
    called. *)
Definition browser_with_broken_webgl2 : Env :=
  {| typeof_WebAssembly_is_object := true;
     gpu_in_navigator := Ret false;
     createElement_canvas :=
       Ret {| getContext_webgl := Ret true;
              getContext_webgl2 := Throw (ErrorObject "webgl2 failed") |};
     typeof_SharedArrayBuffer_is_function := false;
     CreateMLCEngine := fun _ => ([], Ret 1%nat);
     getGPUVendor := fun _ => Ret "nvidia";
     completions_create := fun _ _ => hello;
     engine_resetChat := fun _ => Ret tt |}.


(** The engine resolves a completion with an empty [choices] array. *)
Definition env_no_choices : Env := browser [] (Ret 1%nat) (Ret []).

(** The store after the failed [initialize] of [env_oom]. *)
Definition failed_store : Store :=
  snd (initialize env_oom Llama_3_1_8B_Instruct_q4f32_1_MLC initial_store).

(** The successive [InitProgress] values a log records. *)
Fixpoint progress_states (tr : list Event) : list WebLLMInitProgress :=
  match tr with
  | [] => []
  | EvSetInitProgress p :: tr' => p :: progress_states tr'
  | _ :: tr' => progress_states tr'
  end.

(** How an engine attempt ends in [InitProgress]. *)
Definition final_progress (created : Outcome MLCEngine) : WebLLMInitProgress :=
  match created with
  | Ret _ => done_progress
  | Throw t => failed_progress t
  end.

(** ** Calls through the callback of any render

    Like [initialize], the callbacks [generate] and [resetChat] and the
    mount effect read the cells their closure captured when a render
    created it ([useCallback] dependencies, lines 214 and 225; effect
    dependencies, line 169), not the cells as they are when the call runs.
    The definitions below take the captured cells as arguments; [generate],
    [resetChat] and [mount_effect] above are the case of the latest
    render. *)

Definition generate_closure (c_engine : option MLCEngine) (c_initialized : bool)
    (env : Env) (prompt : string) (options : GenerationOptions)
    : M GenerationResponse :=
  match c_engine with
  | None => ret not_initialized_response
  | Some e =>
    if negb c_initialized then ret not_initialized_response
    else
      try_catch
        (response <- call_completions_create env e (build_request prompt options) ;;
         c <- first_choice_content response ;;
         ret {| gen_text := or_empty c;
                gen_status := gen_success;
                gen_error_message := None |})
        (fun err =>
           console console_error "Error generating text with WebLLM:" err ;;
           ret {| gen_text := "";
                  gen_status := gen_error;
                  gen_error_message :=
                    Some (message_or "Unknown error generating text" err) |})
  end.

Definition resetChat_closure (c_engine : option MLCEngine) (env : Env) : M unit :=
  match c_engine with
  | None => ret tt
  | Some e =>
    try_catch
      (call_resetChat env e)
      (fun err => console console_error "Error resetting chat:" err)
  end.

Definition mount_effect_closure (c_initialized : bool) (c_engine : option MLCEngine)
    (c_supported : bool) (env : Env) (autoInitialize : bool)
    (defaultModel : WebLLMModelOption) : M unit :=
  checkWebLLMSupport env ;;
  if autoInitialize && c_supported then
    try_catch
      (initialize_closure c_initialized c_engine c_supported env defaultModel ;;
       ret tt)
      (fun err => console console_warn "Auto-initialization failed:" err)
  else ret tt.

(** The store after one operation run through a callback that captured the
    cells [c_initialized], [c_engine] and [c_supported]. *)
Definition exec_closure (c_initialized : bool) (c_engine : option MLCEngine)
    (c_supported : bool) (env : Env) (op : Op) (st : Store) : Store :=
  match op with
  | OpCheckSupport => snd (checkWebLLMSupport env st)
  | OpInitialize m =>
      snd (initialize_closure c_initialized c_engine c_supported env m st)
  | OpGenerate prompt options =>
      snd (generate_closure c_engine c_initialized env prompt options st)
  | OpResetChat => snd (resetChat_closure c_engine env st)
  | OpMountEffect a m =>
      snd (mount_effect_closure c_initialized c_engine c_supported env a m st)
  end.

(** The stores a provider can be in when its operations run one after the
    other, each through the callback of any render whatever.  The cells a
    call captured are left unconstrained: this covers every render the
    provider has had (and more), so what holds of these stores holds of the
    provider however stale the callbacks in use are. *)
Inductive reachable_any_callback : Store -> Prop :=
| any_initial : reachable_any_callback initial_store
| any_step ci ce cs env op st :
    reachable_any_callback st ->
    reachable_any_callback (exec_closure ci ce cs env op st).

(** The [InitProgress] values with which an [initialize] call can end. *)
Definition final_progress_value (p : WebLLMInitProgress) : Prop :=
  p = done_progress \/ p = unsupported_progress \/
  exists t, p = failed_progress t.

(** What holds of the provider between two calls, through whatever
    callbacks they were made. *)
Definition between_calls (st : Store) : Prop :=
  supported st = si_supported (systemInfo st) /\
  (sessions (trace st) <= create_calls (trace st))%nat /\
  ((engine st = None /\ initialized st = false /\
    sessions (trace st) = 0%nat /\
    gpuVendor (systemInfo st) = None /\
    idle_progress (initProgress st)) \/
   (engine st <> None /\ initialized st = true /\
    (1 <= sessions (trace st))%nat /\
    final_progress_value (initProgress st))).

(** The store after [await initialize(); await initialize()] through the
    callback of the first render, when the engine resolves the first
    session creation and rejects the second. *)
Definition stale_retry_store : Store :=
  snd (initialize_closure false None false env_oom
         Llama_3_1_8B_Instruct_q4f32_1_MLC ready_store).

(** The operations that never start an engine attempt. *)
Definition starts_no_attempt (op : Op) : bool :=
  match op with
  | OpInitialize _ => false
  | OpMountEffect _ _ => false
  | _ => true
  end.

(** * Properties *)

(** ** The monad and the log *)

Lemma last_shift {A} (l : list A) (x d : A) :
  last (x :: l) d = last l x.
Proof.
  revert x d. induction l as [|y l IH]; intros x d; [reflexivity|].
  change (last (x :: y :: l) d) with (last (y :: l) d).
  rewrite (IH y d). symmetry. apply IH.
Qed.

Lemma for_each_progressCallback (reports : list InitProgressReport) :
  forall st,
    for_each progressCallback reports st =
    (Ret tt,
     {| engine := engine st; initialized := initialized st;
        supported := supported st;
        initProgress := last (map relayed reports) (initProgress st);
        systemInfo := systemInfo st;
        trace := trace st ++ map (fun r => EvSetInitProgress (relayed r)) reports |}).
Proof.
  induction reports as [|r reports IH]; intros [e i s p si tr].
  - cbn. unfold ret. now rewrite app_nil_r.
  - cbn [for_each]. unfold bind at 1.
    unfold progressCallback at 1, setInitProgress at 1. cbn.
    rewrite IH. cbn [engine initialized supported initProgress systemInfo trace].
    rewrite <- app_assoc. cbn [app].
    change (match map relayed reports with
            | [] => relayed r
            | _ :: _ => last (map relayed reports) p
            end) with (last (relayed r :: map relayed reports) p).
    rewrite (last_shift (map relayed reports) (relayed r) p).
    reflexivity.
Qed.

Lemma quiet_nil : quiet [].
Proof. intros ev []. Qed.

Lemma quiet_no_create evs : quiet evs -> filter is_create evs = [].
Proof.
  induction evs as [|ev evs IH]; intro Hq; [reflexivity|].
  cbn. assert (Hc : is_console ev = true) by (apply Hq; now left).
  destruct ev; try discriminate Hc. cbn. apply IH.
  intros ev' Hin. apply Hq. now right.
Qed.

Lemma quiet_no_session evs e : quiet evs -> ~ In (EvSessionCreated e) evs.
Proof. intros Hq Hin. specialize (Hq _ Hin). discriminate Hq. Qed.

Lemma create_calls_app tr evs :
  create_calls (tr ++ evs) = (create_calls tr + create_calls evs)%nat.
Proof. unfold create_calls. now rewrite filter_app, length_app. Qed.

Lemma completion_calls_app tr evs :
  completion_calls (tr ++ evs) = (completion_calls tr + completion_calls evs)%nat.
Proof. unfold completion_calls. now rewrite filter_app, length_app. Qed.

Lemma session_created_app tr evs :
  session_created tr -> session_created (tr ++ evs).
Proof. intros [e He]. exists e. apply in_or_app. now left. Qed.

Lemma extends_refl st : extends st st.
Proof. exists []. now rewrite app_nil_r. Qed.

Lemma extends_trans a b c : extends a b -> extends b c -> extends a c.
Proof.
  intros [e1 H1] [e2 H2]. exists (e1 ++ e2).
  now rewrite H2, H1, app_assoc.
Qed.

(** ** The capability probe *)

Ltac run_js :=
  cbv beta delta [bind try_catch ret throw await emit console setEngine
                  setInitialized setSupported setInitProgress setSystemInfo
                  probe_webgl]; cbn.

Lemma quiet_console level label t : quiet [EvConsole level label t].
Proof. intros ev [<-|[]]. reflexivity. Qed.

Create HintDb js.
#[local] Hint Resolve quiet_nil quiet_console : js.

Lemma checkWebLLMSupport_spec env st :
  exists b st', checkWebLLMSupport env st = (Ret b, st') /\ probe_post env st b st'.
Proof.
  destruct st as [e i s p si tr]. unfold checkWebLLMSupport, probe_post.
  destruct (typeof_WebAssembly_is_object env) eqn:Hw; cbn [negb].
  - run_js.
    destruct (gpu_in_navigator env) as [g|t1]; cbn;
      [destruct (createElement_canvas env) as [c|t2]; cbn;
       [destruct (getContext_webgl c) as [[|]|t3]; cbn;
        [|destruct (getContext_webgl2 c) as [w2|t4]; cbn|]|]|];
      eexists; eexists; (split; [reflexivity|]); cbn;
      repeat split; auto; try discriminate;
      try (exists []; split; [now rewrite app_nil_r|auto with js]);
      try (eexists; split; [reflexivity|auto with js]).
  - run_js. eexists; eexists; (split; [reflexivity|]); cbn.
    repeat split; auto.
    exists []; split; [now rewrite app_nil_r|auto with js].
Qed.

(** ** [initialize], path by path *)

Lemma initialize_closure_ready ci ce cs env m st :
  ci && is_set ce = true ->
  initialize_closure ci ce cs env m st = (Ret true, st).
Proof. intro H. unfold initialize_closure. now rewrite H. Qed.

Lemma initialize_closure_probe ci ce env m st :
  ci && is_set ce = false ->
  initialize_closure ci ce false env m st =
  match checkWebLLMSupport env st with
  | (Ret true, st1) => initialize_closure ci ce true env m st1
  | (Ret false, st1) => (Ret false, store_after_unsupported st1)
  | (Throw t, st1) => (Throw t, st1)
  end.
Proof.
  intro H. unfold initialize_closure. rewrite H. cbn [negb].
  unfold bind at 1. destruct (checkWebLLMSupport env st) as [[[|]|t] st1];
    reflexivity.
Qed.

Lemma initialize_closure_attempt ci ce env m st :
  ci && is_set ce = false ->
  initialize_closure ci ce true env m st =
  match snd (CreateMLCEngine env m) with
  | Ret e => (Ret true, store_after_success env m e st)
  | Throw t => (Ret false, store_after_failure env m t st)
  end.
Proof.
  intro H. unfold initialize_closure. rewrite H. cbn [negb].
  unfold call_CreateMLCEngine, call_getGPUVendor.
  destruct st as [e0 i0 s0 p0 si0 tr0].
  run_js. rewrite for_each_progressCallback. cbn.
  unfold store_after_success, store_after_failure, attempt_events, vendor_events,
    vendor_info.
  destruct (snd (CreateMLCEngine env m)) as [e|t]; cbn.
  - destruct (getGPUVendor env e) as [v|t]; cbn;
      repeat (rewrite <- app_assoc; cbn [app]); reflexivity.
  - repeat (rewrite <- app_assoc; cbn [app]). reflexivity.
Qed.

Lemma probe_frame_refl st : probe_frame st st.
Proof.
  repeat split; auto.
  exists []. split; [now rewrite app_nil_r|apply quiet_nil].
Qed.

Lemma probe_post_frame env st b st1 : probe_post env st b st1 -> probe_frame st st1.
Proof. intros (He & Hi & _ & Hp & Ht & Hv & _). repeat split; auto. Qed.

(** Every call of [initialize] that is not answered at once runs the probe
    (or skips it when [supported] was captured as true) and then takes one
    of three paths. *)
Lemma initialize_closure_cases ci ce cs env m st :
  ci && is_set ce = false ->
  exists b st1,
    probe_frame st st1 /\
    (cs = true -> b = true /\ st1 = st) /\
    (cs = false ->
       checkWebLLMSupport env st = (Ret b, st1) /\ probe_post env st b st1) /\
    initialize_closure ci ce cs env m st = after_probe env m b st1.
Proof.
  intro H. destruct cs.
  - exists true, st. repeat split; try discriminate; try apply probe_frame_refl.
    unfold after_probe. now apply initialize_closure_attempt.
  - destruct (checkWebLLMSupport_spec env st) as (b & st1 & Hc & Hp).
    exists b, st1. split; [eapply probe_post_frame; eauto|].
    split; [discriminate|]. split; [auto|].
    rewrite (initialize_closure_probe _ _ _ _ _ H), Hc.
    unfold after_probe. destruct b; [|reflexivity].
    now apply initialize_closure_attempt.
Qed.

Lemma not_ready_guard st :
  ~ Ready st -> initialized st && is_set (engine st) = false.
Proof.
  unfold Ready. destruct (initialized st), (engine st); cbn; auto.
  intro H. exfalso. apply H. split; [reflexivity|discriminate].
Qed.


Lemma create_calls_attempt m reports :
  create_calls (attempt_events m reports) = 1%nat.
Proof.
  unfold create_calls, attempt_events. cbn. f_equal.
  induction reports as [|r reports IH]; [reflexivity|exact IH].
Qed.

Lemma create_calls_vendor e a : create_calls (vendor_events e a) = 0%nat.
Proof. destruct a; reflexivity. Qed.

Lemma create_calls_quiet evs : quiet evs -> create_calls evs = 0%nat.
Proof. intro H. unfold create_calls. now rewrite quiet_no_create. Qed.

Lemma create_calls_success env m e st :
  create_calls (trace (store_after_success env m e st)) =
  S (create_calls (trace st)).
Proof.
  unfold store_after_success. cbn [trace].
  rewrite !create_calls_app, create_calls_attempt.
  change (create_calls (EvSessionCreated e :: EvSetInitProgress done_progress
                          :: vendor_events e (getGPUVendor env e)))
    with (create_calls (vendor_events e (getGPUVendor env e))).
  rewrite create_calls_vendor. lia.
Qed.

(** ** [generate] and [resetChat], path by path *)

Lemma generate_not_initialized env prompt options st :
  engine st = None \/ initialized st = false ->
  generate env prompt options st = (Ret not_initialized_response, st).
Proof.
  intros [H|H]; unfold generate; [now rewrite H|].
  rewrite H. now destruct (engine st).
Qed.

Lemma generate_ready env prompt options st e :
  engine st = Some e -> initialized st = true ->
  generate env prompt options st =
  (Ret (response_of (completions_create env e (build_request prompt options))),
   with_events st
     (EvCompletionsCreate e (build_request prompt options)
        :: failure_events "Error generating text with WebLLM:"
             (completion_failure
                (completions_create env e (build_request prompt options))))).
Proof.
  intros He Hi. unfold generate. rewrite He, Hi. cbn [negb].
  unfold call_completions_create, first_choice_content, with_events.
  destruct st as [e0 i0 s0 p0 si0 tr0]. run_js.
  destruct (completions_create env e (build_request prompt options))
    as [[|c cs]|t]; cbn; repeat (rewrite <- app_assoc; cbn [app]); reflexivity.
Qed.

Lemma resetChat_cases env st :
  resetChat env st =
  match engine st with
  | None => (Ret tt, st)
  | Some e =>
      (Ret tt,
       with_events st
         (EvResetChat e
            :: failure_events "Error resetting chat:"
                 (reset_failure (engine_resetChat env e))))
  end.
Proof.
  unfold resetChat. destruct (engine st) as [e|] eqn:He; [|reflexivity].
  unfold call_resetChat, with_events.
  destruct st as [e0 i0 s0 p0 si0 tr0]. run_js.
  destruct (engine_resetChat env e) as [[]|t]; cbn;
    repeat (rewrite <- app_assoc; cbn [app]); reflexivity.
Qed.

(** ** Frames and steps *)

Lemma frame_refl st : frame st st.
Proof. repeat split; auto. apply extends_refl. Qed.

Lemma frame_trans a b c : frame a b -> frame b c -> frame a c.
Proof.
  intros (E1 & I1 & V1 & X1) (E2 & I2 & V2 & X2).
  repeat split; try congruence.
  - destruct V2 as [V2|V2]; [now left|]. rewrite V2. exact V1.
  - eapply extends_trans; eauto.
Qed.

Lemma frame_with_events st evs : frame st (with_events st evs).
Proof. repeat split; auto. now exists evs. Qed.

Lemma frame_probe st st1 : probe_frame st st1 -> frame st st1.
Proof.
  intros (E & I & _ & (evs & T & _) & V). repeat split; auto. now exists evs.
Qed.

Lemma frame_unsupported st : frame st (store_after_unsupported st).
Proof. repeat split; auto. eexists; reflexivity. Qed.

Lemma frame_failure env m t st : frame st (store_after_failure env m t st).
Proof. repeat split; auto. eexists; reflexivity. Qed.

Lemma step_after_frame a b c : frame a b -> step b c -> step a c.
Proof.
  intros F [G|(s1 & env & m & e & G & ->)].
  - left. eapply frame_trans; eauto.
  - right. exists s1, env, m, e. split; [eapply frame_trans; eauto|reflexivity].
Qed.

(** [initialize] never throws, whatever cells its closure captured. *)
Lemma initialize_closure_step ci ce cs env m st :
  exists b st', initialize_closure ci ce cs env m st = (Ret b, st') /\ step st st'.
Proof.
  destruct (ci && is_set ce) eqn:G.
  - exists true, st. split; [now apply initialize_closure_ready|].
    left. apply frame_refl.
  - destruct (initialize_closure_cases ci ce cs env m st G)
      as (b & st1 & F & _ & _ & ->).
    apply frame_probe in F. unfold after_probe.
    destruct b; [destruct (snd (CreateMLCEngine env m)) as [e|t]|];
      eexists; eexists; (split; [reflexivity|]).
    + right. exists st1, env, m, e. split; [exact F|reflexivity].
    + left. eapply frame_trans; [exact F|apply frame_failure].
    + left. eapply frame_trans; [exact F|apply frame_unsupported].
Qed.

Lemma generate_step env prompt options st :
  exists r st', generate env prompt options st = (Ret r, st') /\ frame st st'.
Proof.
  destruct (engine st) as [e|] eqn:He; [destruct (initialized st) eqn:Hi|].
  - rewrite (generate_ready _ _ _ _ _ He Hi). eexists; eexists.
    split; [reflexivity|apply frame_with_events].
  - rewrite generate_not_initialized by now right.
    eexists; eexists. split; [reflexivity|apply frame_refl].
  - rewrite generate_not_initialized by now left.
    eexists; eexists. split; [reflexivity|apply frame_refl].
Qed.

Lemma resetChat_step env st :
  exists st', resetChat env st = (Ret tt, st') /\ frame st st'.
Proof.
  rewrite resetChat_cases. destruct (engine st) as [e|].
  - eexists. split; [reflexivity|apply frame_with_events].
  - eexists. split; [reflexivity|apply frame_refl].
Qed.

Lemma mount_effect_step env a m st :
  exists st', mount_effect env a m st = (Ret tt, st') /\ step st st'.
Proof.
  unfold mount_effect.
  destruct (checkWebLLMSupport_spec env st) as (b & st1 & Hc & Hp).
  apply probe_post_frame, frame_probe in Hp.
  unfold bind at 1. rewrite Hc.
  destruct (a && supported st).
  - unfold try_catch, bind.
    destruct (initialize_closure_step (initialized st) (engine st) (supported st)
                env m st1) as (b' & st' & -> & Hs).
    exists st'. split; [reflexivity|]. eapply step_after_frame; eauto.
  - exists st1. split; [reflexivity|]. now left.
Qed.

Lemma exec_step env op st : step st (exec env op st).
Proof.
  destruct op as [|m|prompt options| |a m]; cbn [exec].
  - destruct (checkWebLLMSupport_spec env st) as (b & st1 & -> & Hp).
    left. now apply frame_probe, (probe_post_frame env st b).
  - unfold initialize.
    destruct (initialize_closure_step (initialized st) (engine st) (supported st)
                env m st) as (b & st' & -> & Hs). exact Hs.
  - destruct (generate_step env prompt options st) as (r & st' & -> & F).
    now left.
  - destruct (resetChat_step env st) as (st' & -> & F). now left.
  - destruct (mount_effect_step env a m st) as (st' & -> & Hs). exact Hs.
Qed.


Lemma step_vendor_inv st st' : step st st' -> vendor_inv st -> vendor_inv st'.
Proof.
  unfold vendor_inv.
  intros [(_ & _ & V & (evs & T))|(s1 & env & m & e & _ & ->)] H Hv.
  - rewrite T. apply session_created_app. apply H.
    destruct V as [V|V]; congruence.
  - exists e. cbn [trace store_after_success].
    apply in_or_app. right. apply in_or_app. right. now left.
Qed.


Lemma step_engine_inv st st' : step st st' -> engine_inv st -> engine_inv st'.
Proof.
  unfold engine_inv.
  intros [(E & _ & _ & (evs & T))|(s1 & env & m & e & _ & ->)] H Hv.
  - rewrite T. apply session_created_app. apply H. congruence.
  - exists e. cbn [trace store_after_success].
    apply in_or_app. right. apply in_or_app. right. now left.
Qed.

Lemma reachable_engine_inv ok st : reachable ok st -> engine_inv st.
Proof.
  induction 1 as [|env op st _ _ IH].
  - intro H. now contradiction H.
  - eapply step_engine_inv; [apply exec_step|exact IH].
Qed.

Lemma reachable_vendor_inv ok st : reachable ok st -> vendor_inv st.
Proof.
  induction 1 as [|env op st _ _ IH].
  - intro H. now contradiction H.
  - eapply step_vendor_inv; [apply exec_step|exact IH].
Qed.

Lemma new_events_app st st' evs :
  trace st' = trace st ++ evs -> new_events st st' = evs.
Proof.
  intro H. unfold new_events. rewrite H.
  rewrite skipn_app, skipn_all, Nat.sub_diag. reflexivity.
Qed.

(** ** C4: [initialize] on a Ready provider *)

Lemma ready_store_Ready : Ready ready_store.
Proof. split; vm_compute; [reflexivity|discriminate]. Qed.

Lemma initial_store_not_Ready : ~ Ready initial_store.
Proof. intros [H _]. discriminate H. Qed.




(** ** C9: the accelerator vendor *)

(** C9.  [gpuVendor != null] implies that a session was created at least
    once: the property holds of the initial store, every operation preserves
    it, so it holds of every store the provider can reach; the probe never
    turns an empty [gpuVendor] into a vendor, and neither does an
    [initialize] that returns false. *)
Theorem gpuVendor_implies_session_created :
  vendor_inv initial_store /\
  (forall env op st, vendor_inv st -> vendor_inv (exec env op st)) /\
  (forall st,
     reachable any_env st ->
     gpuVendor (systemInfo st) <> None -> session_created (trace st)) /\
  (forall env st,
     gpuVendor (systemInfo st) = None ->
     gpuVendor (systemInfo (snd (checkWebLLMSupport env st))) = None) /\
  (forall env m st,
     gpuVendor (systemInfo st) = None ->
     fst (initialize env m st) = Ret false ->
     gpuVendor (systemInfo (snd (initialize env m st))) = None).
Proof.
  split; [intro H; now contradiction H|].
  split; [intros env op st; apply step_vendor_inv, exec_step|].
  split; [intros st H; now apply (reachable_vendor_inv any_env)|].
  split.
  - intros env st H.
    destruct (checkWebLLMSupport_spec env st) as (b & st1 & -> & Hp).
    destruct Hp as (_ & _ & _ & _ & _ & [V|V] & _); cbn [snd]; congruence.
  - intros env m st H. unfold initialize.
    destruct (initialized st && is_set (engine st)) eqn:G.
    + rewrite initialize_closure_ready by exact G. discriminate.
    + destruct (initialize_closure_cases _ _ (supported st) env m st G)
        as (b & st1 & (_ & _ & _ & _ & V) & _ & _ & ->).
      assert (V1 : gpuVendor (systemInfo st1) = None)
        by (destruct V; congruence).
      unfold after_probe.
      destruct b; [destruct (snd (CreateMLCEngine env m))|]; cbn;
        try discriminate; auto.
Qed.

Lemma reachable_initialize ok env m st :
  ok env -> reachable ok st -> reachable ok (snd (initialize env m st)).
Proof. intros He Hr. exact (reach_step ok env (OpInitialize m) st He Hr). Qed.

Lemma ready_store_reachable : reachable any_env ready_store.
Proof.
  unfold ready_store. apply reachable_initialize; [exact I|apply reach_initial].
Qed.

Lemma gpuVendor_implies_session_created_witness :
  gpuVendor (systemInfo ready_store) = Some "nvidia" /\
  session_created (trace ready_store).
Proof.
  split; [vm_compute; reflexivity|].
  apply (proj1 (proj2 (proj2 gpuVendor_implies_session_created)) ready_store).
  - exact ready_store_reachable.
  - vm_compute. discriminate.
Defined.

(** ** C3: no WebAssembly, no engine *)

Lemma never_supported_not_ready st : never_supported st -> ~ Ready st.
Proof. intros (_ & He & _) [_ H]. now apply H. Qed.

Lemma initialize_without_wasm env m st :
  no_wasm env -> never_supported st ->
  exists st1,
    checkWebLLMSupport env st = (Ret false, st1) /\
    trace st1 = trace st /\
    initialize env m st = (Ret false, store_after_unsupported st1) /\
    never_supported (store_after_unsupported st1).
Proof.
  intros Hw Hn. pose proof (never_supported_not_ready _ Hn) as Hr.
  destruct Hn as (Hs & He & Hi & Hc). unfold initialize.
  destruct (initialize_closure_cases _ _ (supported st) env m st
              (not_ready_guard _ Hr)) as (b & st1 & _ & _ & Hp & ->).
  destruct (Hp Hs) as (Hcheck & E1 & I1 & S1 & _ & _ & _ & W).
  destruct (W Hw) as [-> T]. exists st1.
  split; [exact Hcheck|]. split; [exact T|]. split; [reflexivity|].
  unfold never_supported, store_after_unsupported.
  cbn [supported engine initialized trace].
  repeat split; try congruence.
  rewrite T, create_calls_app, Hc. reflexivity.
Qed.

Lemma exec_never_supported env op st :
  no_wasm env -> never_supported st -> never_supported (exec env op st).
Proof.
  intros Hw Hn. pose proof Hn as (Hs & He & Hi & Hc).
  destruct (initialize_without_wasm env Llama_3_1_8B_Instruct_q4f32_1_MLC st Hw Hn)
    as (st1 & Hcheck & T & _ & N1).
  assert (N : never_supported st1).
  { destruct N1 as (S1 & E1 & I1 & C1). cbn in S1, E1, I1.
    repeat split; auto. now rewrite T. }
  destruct op as [|m|prompt options| |a m]; cbn [exec].
  - now rewrite Hcheck.
  - destruct (initialize_without_wasm env m st Hw Hn) as (st2 & _ & _ & -> & N2).
    exact N2.
  - rewrite generate_not_initialized by now left. exact Hn.
  - rewrite resetChat_cases, He. exact Hn.
  - unfold mount_effect, bind. rewrite Hcheck, Hs, andb_false_r. exact N.
Qed.

Lemma reachable_never_supported st : reachable no_wasm st -> never_supported st.
Proof.
  induction 1 as [|env op st Hw _ IH].
  - repeat split.
  - now apply exec_never_supported.
Qed.

(** C3.  Where the WebAssembly facility is absent (whatever the graphics
    interfaces answer), every [initialize] returns false with status
    [error], and the log holds no invocation of the engine's session-creation
    entry point. *)
Theorem initialize_fails_closed_without_wasm env m st :
  no_wasm env ->
  reachable no_wasm st ->
  exists st',
    initialize env m st = (Ret false, st') /\
    status (initProgress st') = error /\
    create_calls (trace st') = 0%nat.
Proof.
  intros Hw Hr. apply reachable_never_supported in Hr.
  destruct (initialize_without_wasm env m st Hw Hr) as (st1 & _ & _ & -> & N).
  eexists. split; [reflexivity|]. split; [reflexivity|]. apply N.
Qed.

Lemma initialize_fails_closed_without_wasm_witness :
  no_wasm browser_without_wasm /\
  reachable no_wasm initial_store /\
  exists st',
    initialize browser_without_wasm Llama_3_1_8B_Instruct_q4f32_1_MLC initial_store
      = (Ret false, st') /\
    status (initProgress st') = error /\
    create_calls (trace st') = 0%nat.
Proof.
  split; [reflexivity|]. split; [apply reach_initial|].
  apply (initialize_fails_closed_without_wasm browser_without_wasm
           Llama_3_1_8B_Instruct_q4f32_1_MLC initial_store).
  - reflexivity.
  - apply reach_initial.
Defined.

(** ** C5: [generate] without a session *)

Lemma not_ready_cases st : ~ Ready st -> engine st = None \/ initialized st = false.
Proof.
  intro H. destruct (engine st) eqn:He; [|now left].
  destruct (initialized st) eqn:Hi; [|now right].
  exfalso. apply H. split; congruence.
Qed.

(** C5.  With no live session, [generate] answers the fixed error response
    (status [error], empty text, a non-empty message) and leaves the store
    and the log as they are, so the completion entry point is not invoked;
    and a provider whose log shows no created session has no live session. *)
Theorem generate_requires_session :
  (forall env prompt options st,
     ~ Ready st ->
     generate env prompt options st = (Ret not_initialized_response, st) /\
     completion_calls (trace (snd (generate env prompt options st))) =
       completion_calls (trace st)) /\
  (gen_status not_initialized_response = gen_error /\
   gen_text not_initialized_response = "" /\
   exists msg, gen_error_message not_initialized_response = Some msg /\ msg <> "") /\
  (forall st,
     reachable any_env st -> ~ session_created (trace st) -> ~ Ready st).
Proof.
  split; [|split].
  - intros env prompt options st H. apply not_ready_cases in H.
    rewrite (generate_not_initialized env prompt options st H). auto.
  - repeat split. eexists. split; [reflexivity|discriminate].
  - intros st Hr Hn [_ He]. apply Hn.
    now apply (reachable_engine_inv any_env).
Qed.

Lemma generate_requires_session_witness :
  ~ Ready initial_store /\
  generate env_resolves "hi" no_options initial_store
    = (Ret not_initialized_response, initial_store).
Proof.
  split; [exact initial_store_not_Ready|].
  apply (proj1 generate_requires_session env_resolves "hi" no_options initial_store).
  exact initial_store_not_Ready.
Defined.

(** ** C7: [generate] never throws *)

Lemma response_of_well_formed answer : well_formed_response (response_of answer).
Proof.
  destruct answer as [[|c cs]|t]; cbn; auto; split; auto; discriminate.
Qed.

Lemma completion_calls_failure label f :
  completion_calls (failure_events label f) = 0%nat.
Proof. destruct f; reflexivity. Qed.

(** C7.  Whatever the engine does, [generate] ends with a response and not
    with a thrown value; the response has status [success] and no error
    message, or status [error], an error message and the empty text; the
    cells of the provider (the stored session and [initialized] among them)
    are as before, so a Ready provider stays Ready and its next [generate]
    invokes the completion entry point once more. *)
Theorem generate_never_throws env prompt options st :
  exists r st',
    generate env prompt options st = (Ret r, st') /\
    well_formed_response r /\
    same_cells st' st /\
    (Ready st ->
     Ready st' /\
     forall env' prompt' options',
       completion_calls (trace (snd (generate env' prompt' options' st'))) =
       S (completion_calls (trace st'))).
Proof.
  destruct (engine st) as [e|] eqn:He; [destruct (initialized st) eqn:Hi|].
  - rewrite (generate_ready _ _ _ _ _ He Hi). eexists; eexists.
    split; [reflexivity|]. split; [apply response_of_well_formed|].
    split; [repeat split|].
    intros _. split; [split; cbn; congruence|].
    intros env' prompt' options'.
    rewrite (generate_ready env' prompt' options' _ e) by (cbn; assumption).
    cbn [snd]. unfold with_events at 1. cbn [trace].
    rewrite completion_calls_app.
    change (completion_calls (EvCompletionsCreate e (build_request prompt' options')
                                :: ?l)) with (S (completion_calls l)).
    unfold completion_calls at 2. cbn [filter is_completion List.length].
    fold (completion_calls
            (failure_events "Error generating text with WebLLM:"
               (completion_failure
                  (completions_create env' e (build_request prompt' options'))))).
    rewrite completion_calls_failure. lia.
  - rewrite generate_not_initialized by now right.
    eexists; eexists. split; [reflexivity|].
    split; [cbn; split; [reflexivity|discriminate]|].
    split; [repeat split|]. intros [H _]. congruence.
  - rewrite generate_not_initialized by now left.
    eexists; eexists. split; [reflexivity|].
    split; [cbn; split; [reflexivity|discriminate]|].
    split; [repeat split|]. intros [_ H]. congruence.
Qed.

Lemma generate_never_throws_witness :
  Ready ready_store /\
  exists r st',
    generate env_completion_fails "hi" no_options ready_store = (Ret r, st') /\
    well_formed_response r /\ same_cells st' ready_store /\ Ready st'.
Proof.
  split; [exact ready_store_Ready|].
  destruct (generate_never_throws env_completion_fails "hi" no_options ready_store)
    as (r & st' & H1 & H2 & H3 & H4).
  exists r, st'. split; [exact H1|]. split; [exact H2|]. split; [exact H3|].
  apply (H4 ready_store_Ready).
Defined.

(** ** C8: [resetChat] is silent *)


(** ** C10: a completion whose first choice has no content *)

(** C10.  When the provider is Ready and the completion resolves with a
    first choice whose [message.content] is [null], [generate] answers
    status [success] with the empty text and no error message. *)
Theorem generate_null_content env prompt options st e rest :
  engine st = Some e ->
  initialized st = true ->
  completions_create env e (build_request prompt options)
    = Ret ({| message_content := None |} :: rest) ->
  fst (generate env prompt options st) =
  Ret {| gen_text := ""; gen_status := gen_success; gen_error_message := None |}.
Proof.
  intros He Hi Hc. rewrite (generate_ready _ _ _ _ _ He Hi), Hc. reflexivity.
Qed.

Lemma generate_null_content_witness :
  engine ready_store = Some 1%nat /\
  initialized ready_store = true /\
  fst (generate env_null_content "hi" no_options ready_store) =
  Ret {| gen_text := ""; gen_status := gen_success; gen_error_message := None |}.
Proof.
  split; [vm_compute; reflexivity|]. split; [vm_compute; reflexivity|].
  apply (generate_null_content env_null_content "hi" no_options ready_store
           1%nat []).
  - vm_compute. reflexivity.
  - vm_compute. reflexivity.
  - reflexivity.
Defined.

(** ** C1: the engine rejects session creation *)

Lemma new_events_same st : new_events st st = [].
Proof. unfold new_events. apply skipn_all. Qed.





(** When the rejected value is not an [Error], its text does not reach
    [InitProgress]. *)
Lemma initialize_failure_non_error_text env m st shown :
  ~ Ready st -> supported st = true ->
  snd (CreateMLCEngine env m) = Throw (NonError shown) ->
  text (initProgress (snd (initialize env m st))) =
  "Failed to initialize WebLLM: Unknown error".
Proof.
  intros Hn Hs Ht. unfold initialize. rewrite Hs.
  rewrite initialize_closure_attempt by now apply not_ready_guard.
  rewrite Ht. reflexivity.
Qed.

(** ** C6: progress during one attempt *)

Lemma initializing_progress_app a b :
  initializing_progress (a ++ b) = initializing_progress a ++ initializing_progress b.
Proof.
  induction a as [|ev a IH]; [reflexivity|].
  cbn [app initializing_progress]. destruct ev; auto.
  destruct (status p); auto. cbn [app]. now f_equal.
Qed.

Lemma initializing_progress_quiet evs : quiet evs -> initializing_progress evs = [].
Proof.
  induction evs as [|ev evs IH]; intro Hq; [reflexivity|].
  assert (Hc : is_console ev = true) by (apply Hq; now left).
  destruct ev; try discriminate Hc. cbn. apply IH.
  intros ev' Hin. apply Hq. now right.
Qed.

Lemma initializing_progress_attempt m reports :
  initializing_progress (attempt_events m reports) =
  0%Q :: map report_progress reports.
Proof.
  unfold attempt_events. cbn. f_equal.
  induction reports as [|r reports IH]; [reflexivity|].
  cbn. now f_equal.
Qed.

Lemma initializing_progress_vendor e a :
  initializing_progress (vendor_events e a) = [].
Proof. destruct a; reflexivity. Qed.

(** C6 as the code has it.  The [progress] values that one [initialize]
    call stores with status [initializing] are 0 followed by the values the
    engine reported, in the engine's order and unchanged (none when the call
    does not reach the engine).  They are non-decreasing whenever the
    engine's reports, after the initial 0, are. *)
Theorem progress_relays_engine_reports env m st :
  initializing_progress (new_events st (snd (initialize env m st))) =
    (if Nat.eqb (create_calls (new_events st (snd (initialize env m st)))) 0
     then []
     else 0%Q :: map report_progress (fst (CreateMLCEngine env m))) /\
  (non_decreasing (0%Q :: map report_progress (fst (CreateMLCEngine env m))) ->
   non_decreasing
     (initializing_progress (new_events st (snd (initialize env m st))))).
Proof.
  assert (H : initializing_progress (new_events st (snd (initialize env m st))) =
              (if Nat.eqb (create_calls (new_events st (snd (initialize env m st)))) 0
               then []
               else 0%Q :: map report_progress (fst (CreateMLCEngine env m)))).
  { unfold initialize.
    destruct (initialized st && is_set (engine st)) eqn:G.
    - rewrite initialize_closure_ready by exact G. cbn [snd].
      rewrite new_events_same. reflexivity.
    - destruct (initialize_closure_cases _ _ (supported st) env m st G)
        as (b & st1 & (_ & _ & _ & (evs & T & Q) & _) & _ & _ & ->).
      unfold after_probe.
      destruct b; [destruct (snd (CreateMLCEngine env m)) as [e|t]|]; cbn [snd].
      + rewrite (new_events_app st (store_after_success env m e st1)
                   (evs ++ attempt_events m (fst (CreateMLCEngine env m))
                      ++ EvSessionCreated e :: EvSetInitProgress done_progress
                           :: vendor_events e (getGPUVendor env e)))
          by (cbn; rewrite T; now rewrite <- app_assoc).
        rewrite !create_calls_app, !initializing_progress_app.
        rewrite (create_calls_quiet _ Q), (initializing_progress_quiet _ Q).
        rewrite create_calls_attempt, initializing_progress_attempt.
        cbn [app Nat.add Nat.eqb initializing_progress status done_progress].
        rewrite initializing_progress_vendor. now rewrite app_nil_r.
      + rewrite (new_events_app st (store_after_failure env m t st1)
                   (evs ++ attempt_events m (fst (CreateMLCEngine env m))
                      ++ [EvConsole console_error "Failed to initialize WebLLM:" t;
                          EvSetInitProgress (failed_progress t)]))
          by (cbn; rewrite T; now rewrite <- app_assoc).
        rewrite !create_calls_app, !initializing_progress_app.
        rewrite (create_calls_quiet _ Q), (initializing_progress_quiet _ Q).
        rewrite create_calls_attempt, initializing_progress_attempt.
        cbn [app Nat.add Nat.eqb initializing_progress status failed_progress].
        now rewrite app_nil_r.
      + rewrite (new_events_app st (store_after_unsupported st1)
                   (evs ++ [EvSetInitProgress unsupported_progress]))
          by (cbn; rewrite T; now rewrite <- app_assoc).
        rewrite !create_calls_app, !initializing_progress_app.
        rewrite (create_calls_quiet _ Q), (initializing_progress_quiet _ Q).
        reflexivity. }
  split; [exact H|]. intro Hm. rewrite H.
  destruct (Nat.eqb _ 0); [exact I|exact Hm].
Qed.

Lemma progress_relays_engine_reports_witness :
  non_decreasing
    (0%Q :: map report_progress
              (fst (CreateMLCEngine env_resolves Llama_3_1_8B_Instruct_q4f32_1_MLC))) /\
  non_decreasing
    (initializing_progress
       (new_events initial_store
          (snd (initialize env_resolves Llama_3_1_8B_Instruct_q4f32_1_MLC
                  initial_store)))).
Proof.
  assert (Hm : non_decreasing
                 (0%Q :: map report_progress
                           (fst (CreateMLCEngine env_resolves
                                   Llama_3_1_8B_Instruct_q4f32_1_MLC)))).
  { cbn. unfold Qle. cbn. repeat split; lia. }
  split; [exact Hm|].
  apply (proj2 (progress_relays_engine_reports env_resolves
                  Llama_3_1_8B_Instruct_q4f32_1_MLC initial_store)).
  exact Hm.
Defined.

(** C6 as stated fails: the engine reports 0.9 and then 0.3; the stored
    progress goes 0, 0.9, 0.3 while the status stays [initializing]. *)
Lemma progress_can_decrease :
  initializing_progress
    (new_events initial_store
       (snd (initialize env_backwards Llama_3_1_8B_Instruct_q4f32_1_MLC
               initial_store)))
    = [0%Q; 9 # 10; 3 # 10] /\
  ~ non_decreasing
      (initializing_progress
         (new_events initial_store
            (snd (initialize env_backwards Llama_3_1_8B_Instruct_q4f32_1_MLC
                    initial_store)))).
Proof.
  assert (H : initializing_progress
                (new_events initial_store
                   (snd (initialize env_backwards Llama_3_1_8B_Instruct_q4f32_1_MLC
                           initial_store)))
              = [0%Q; 9 # 10; 3 # 10]) by (vm_compute; reflexivity).
  split; [exact H|]. rewrite H. cbn. unfold Qle. cbn. intros (_ & Hle & _). lia.
Qed.

(** ** C2: what [generate] forwards *)

(** The part of C2 that holds: on a Ready provider the engine receives the
    system message followed by the prompt, the temperature (0.7 when
    absent), and [max_tokens], [top_p] and [stop] as given. *)
Lemma generate_forwards env prompt options st e :
  engine st = Some e -> initialized st = true ->
  exists failure,
    new_events st (snd (generate env prompt options st)) =
    EvCompletionsCreate e
      {| req_messages := [system_message; {| role := user; content := prompt |}];
         req_temperature :=
           Some match temperature options with
                | Some v => v
                | None => 7 # 10
                end;
         req_max_tokens := max_tokens options;
         req_top_p := top_p options;
         req_stop := stop options |}
      :: failure_events "Error generating text with WebLLM:" failure.
Proof.
  intros He Hi. rewrite (generate_ready _ _ _ _ _ He Hi). cbn [snd].
  eexists. erewrite new_events_app by reflexivity. reflexivity.
Qed.

(** The request does not depend on [top_k] and [repetition_penalty]. *)
Lemma build_request_ignores_sampling prompt t mt tp tk rp sp tk' rp' :
  build_request prompt
    {| temperature := t; max_tokens := mt; top_p := tp;
       top_k := tk; repetition_penalty := rp; stop := sp |} =
  build_request prompt
    {| temperature := t; max_tokens := mt; top_p := tp;
       top_k := tk'; repetition_penalty := rp'; stop := sp |}.
Proof. reflexivity. Qed.

(** C2 at [generate("hi", { top_k: 40, repetition_penalty: 1.1 })] on a
    Ready provider: the only engine call of the run is a completion whose
    request has the five properties below, the same request as for
    [generate("hi", {})]; neither 40 nor 1.1 reaches the engine. *)
Theorem generate_drops_top_k_and_repetition_penalty :
  top_k sampling_options = Some (40 # 1) /\
  repetition_penalty sampling_options = Some (11 # 10) /\
  new_events ready_store
    (snd (generate env_resolves "hi" sampling_options ready_store)) =
    [EvCompletionsCreate 1%nat
       {| req_messages := [system_message; {| role := user; content := "hi" |}];
          req_temperature := Some (7 # 10);
          req_max_tokens := None;
          req_top_p := None;
          req_stop := None |}] /\
  new_events ready_store
    (snd (generate env_resolves "hi" sampling_options ready_store)) =
  new_events ready_store
    (snd (generate env_resolves "hi" no_options ready_store)).
Proof.
  split; [reflexivity|]. split; [reflexivity|].
  split; vm_compute; reflexivity.
Qed.

(** * Further properties of the provider *)

(** ** The capability probe, case by case *)

Lemma checkWebLLMSupport_writes env st :
  exists b st',
    checkWebLLMSupport env st = (Ret b, st') /\
    supported st' = b /\
    si_supported (systemInfo st') = b /\
    engine st' = engine st /\
    initialized st' = initialized st /\
    initProgress st' = initProgress st /\
    quiet (new_events st st') /\
    (typeof_WebAssembly_is_object env = false -> b = false).
Proof.
  destruct st as [e i s p si tr]. unfold checkWebLLMSupport, new_events.
  destruct (typeof_WebAssembly_is_object env) eqn:Hw; cbn [negb].
  - run_js.
    destruct (gpu_in_navigator env) as [g|t1]; cbn;
      [destruct (createElement_canvas env) as [c|t2]; cbn;
       [destruct (getContext_webgl c) as [[|]|t3]; cbn;
        [|destruct (getContext_webgl2 c) as [w2|t4]; cbn|]|]|];
      eexists; eexists; (split; [reflexivity|]); cbn;
      repeat split; auto; try discriminate;
      try (rewrite skipn_all; apply quiet_nil);
      rewrite skipn_app, skipn_all, Nat.sub_diag; cbn; apply quiet_console.
  - run_js. eexists; eexists; (split; [reflexivity|]); cbn.
    repeat split; auto. rewrite skipn_all. apply quiet_nil.
Qed.

(** X1.  The probe never throws.  The verdict it returns is what it stores
    in both [supported] and [systemInfo.supported]; it leaves the session
    cells and [InitProgress] alone, writes console lines only, and answers
    false when WebAssembly is absent. *)
Theorem checkWebLLMSupport_contract env st :
  exists b st',
    checkWebLLMSupport env st = (Ret b, st') /\
    supported st' = b /\
    si_supported (systemInfo st') = b /\
    engine st' = engine st /\
    initialized st' = initialized st /\
    initProgress st' = initProgress st /\
    quiet (new_events st st') /\
    (typeof_WebAssembly_is_object env = false -> b = false).
Proof. exact (checkWebLLMSupport_writes env st). Qed.

Lemma checkWebLLMSupport_contract_witness :
  typeof_WebAssembly_is_object browser_without_wasm = false /\
  exists st',
    checkWebLLMSupport browser_without_wasm ready_store = (Ret false, st') /\
    supported st' = false /\ engine st' = engine ready_store.
Proof.
  split; [reflexivity|].
  destruct (checkWebLLMSupport_contract browser_without_wasm ready_store)
    as (b & st' & H & S1 & _ & E & _ & _ & _ & W).
  exists st'. rewrite (W eq_refl) in *. auto.
Defined.

(** X2.  With WebAssembly present and no browser call throwing, the verdict
    is (WebGL available) or (WebGPU available), where WebGL is available
    when [getContext('webgl')] is truthy (then [getContext('webgl2')] is
    not called at all) or else when [getContext('webgl2')] is.  The shared
    array buffer flag is recorded and does not enter the verdict, the
    recorded [gpuVendor] is reset to [null], and nothing is logged. *)
Theorem checkWebLLMSupport_verdict env st hasWebGPU canvas hasWebGL :
  typeof_WebAssembly_is_object env = true ->
  gpu_in_navigator env = Ret hasWebGPU ->
  createElement_canvas env = Ret canvas ->
  (getContext_webgl canvas = Ret true /\ hasWebGL = true) \/
  (getContext_webgl canvas = Ret false /\ getContext_webgl2 canvas = Ret hasWebGL) ->
  checkWebLLMSupport env st =
  (Ret (hasWebGL || hasWebGPU),
   {| engine := engine st;
      initialized := initialized st;
      supported := hasWebGL || hasWebGPU;
      initProgress := initProgress st;
      systemInfo :=
        {| si_supported := hasWebGL || hasWebGPU;
           webGPUAvailable := hasWebGPU;
           webGLAvailable := hasWebGL;
           sharedArrayBufferAvailable := typeof_SharedArrayBuffer_is_function env;
           gpuVendor := None |};
      trace := trace st |}).
Proof.
  intros Hw Hg Hc Hgl. unfold checkWebLLMSupport. rewrite Hw. cbn [negb].
  run_js. rewrite Hg. cbn. rewrite Hc. cbn.
  destruct Hgl as [[-> ->]|[-> ->]]; reflexivity.
Qed.

Lemma checkWebLLMSupport_verdict_witness :
  fst (checkWebLLMSupport browser_with_broken_webgl2 ready_store) = Ret true /\
  gpuVendor (systemInfo ready_store) = Some "nvidia" /\
  gpuVendor (systemInfo (snd (checkWebLLMSupport browser_with_broken_webgl2
                                ready_store))) = None.
Proof.
  assert (H := checkWebLLMSupport_verdict browser_with_broken_webgl2 ready_store
                 false
                 {| getContext_webgl := Ret true;
                    getContext_webgl2 := Throw (ErrorObject "webgl2 failed") |}
                 true eq_refl eq_refl eq_refl (or_introl (conj eq_refl eq_refl))).
  rewrite H. split; [reflexivity|]. split; [vm_compute; reflexivity|reflexivity].
Defined.

(** X3.  With WebAssembly present, when a browser call of the probe throws
    [t] the verdict is false: [supported] and [systemInfo.supported] become
    false, the other fields of [systemInfo] (the three availability flags
    and [gpuVendor]) keep their former values, and one [console.error] line
    carrying [t] is logged. *)
Theorem checkWebLLMSupport_fails_closed env st t :
  typeof_WebAssembly_is_object env = true ->
  probe_throws env t ->
  checkWebLLMSupport env st =
  (Ret false,
   {| engine := engine st;
      initialized := initialized st;
      supported := false;
      initProgress := initProgress st;
      systemInfo := with_supported false (systemInfo st);
      trace := trace st
                 ++ [EvConsole console_error "Error checking WebLLM support:" t] |}).
Proof.
  intros Hw Ht. unfold checkWebLLMSupport. rewrite Hw. cbn [negb]. run_js.
  destruct Ht as [->|(g & -> & [->|(c & -> & [->|[-> ->]])])]; reflexivity.
Qed.

Lemma checkWebLLMSupport_fails_closed_witness :
  typeof_WebAssembly_is_object browser_without_document = true /\
  probe_throws browser_without_document (ErrorObject "document is not defined") /\
  fst (checkWebLLMSupport browser_without_document ready_store) = Ret false /\
  webGLAvailable (systemInfo (snd (checkWebLLMSupport browser_without_document
                                     ready_store))) = true.
Proof.
  assert (Hp : probe_throws browser_without_document
                 (ErrorObject "document is not defined")).
  { right. exists true. split; [reflexivity|]. left. reflexivity. }
  split; [reflexivity|]. split; [exact Hp|].
  rewrite (checkWebLLMSupport_fails_closed browser_without_document ready_store
             (ErrorObject "document is not defined") eq_refl Hp).
  split; [reflexivity|vm_compute; reflexivity].
Defined.

(** ** What holds between two calls *)

Lemma sessions_app tr evs :
  sessions (tr ++ evs) = (sessions tr + sessions evs)%nat.
Proof. unfold sessions. now rewrite filter_app, length_app. Qed.

Lemma sessions_quiet evs : quiet evs -> sessions evs = 0%nat.
Proof.
  induction evs as [|ev evs IH]; intro Hq; [reflexivity|].
  assert (Hc : is_console ev = true) by (apply Hq; now left).
  destruct ev; try discriminate Hc. cbn. apply IH.
  intros ev' Hin. apply Hq. now right.
Qed.

Lemma sessions_attempt m reports : sessions (attempt_events m reports) = 0%nat.
Proof.
  unfold sessions, attempt_events. cbn.
  induction reports as [|r reports IH]; [reflexivity|exact IH].
Qed.

Lemma sessions_vendor e a : sessions (vendor_events e a) = 0%nat.
Proof. destruct a; reflexivity. Qed.

Lemma sessions_failure label f : sessions (failure_events label f) = 0%nat.
Proof. destruct f; reflexivity. Qed.

Lemma create_calls_failure label f : create_calls (failure_events label f) = 0%nat.
Proof. destruct f; reflexivity. Qed.

Lemma settled_not_ready st :
  settled st -> initialized st && is_set (engine st) = false ->
  engine st = None /\ initialized st = false /\ sessions (trace st) = 0%nat /\
  gpuVendor (systemInfo st) = None /\ idle_progress (initProgress st).
Proof.
  intros [_ [H|(He & Hi & _)]] G; [exact H|].
  rewrite Hi in G. destruct (engine st); [discriminate G|congruence].
Qed.

Lemma settled_with_events st evs :
  sessions evs = 0%nat -> settled st -> settled (with_events st evs).
Proof.
  intros H0 [Hs Hd]. split; [exact Hs|].
  unfold with_events. cbn [engine initialized trace systemInfo initProgress].
  rewrite sessions_app, H0, Nat.add_0_r. exact Hd.
Qed.

Lemma checkWebLLMSupport_settled env st :
  settled st -> settled (snd (checkWebLLMSupport env st)).
Proof.
  intros [Hs Hd].
  destruct (checkWebLLMSupport_spec env st) as (b & st1 & Heq & Hp).
  destruct (checkWebLLMSupport_writes env st)
    as (b' & st1' & Heq' & S1 & S2 & _).
  rewrite Heq in Heq'. injection Heq' as <- <-. rewrite Heq. cbn [snd].
  destruct Hp as (E & I & _ & P & (evs & T & Q) & V & _).
  split; [congruence|]. rewrite E, I, P, T, sessions_app, (sessions_quiet _ Q).
  rewrite Nat.add_0_r.
  destruct Hd as [(He & Hi & Hn & Hv & Hp)|Hd]; [left|right; exact Hd].
  repeat split; auto. destruct V; congruence.
Qed.

Lemma store_after_success_settled env m e st :
  settled st -> initialized st && is_set (engine st) = false ->
  settled (store_after_success env m e st).
Proof.
  intros Hs G. destruct (settled_not_ready st Hs G) as (_ & _ & Hn & _ & _).
  destruct Hs as [Hs _]. split.
  - unfold store_after_success, vendor_info. cbn [supported systemInfo].
    destruct (getGPUVendor env e); exact Hs.
  - right. unfold store_after_success. cbn [engine initialized trace initProgress].
    repeat split; try discriminate.
    rewrite !sessions_app, Hn, sessions_attempt.
    change (sessions (EvSessionCreated e :: EvSetInitProgress done_progress
                        :: vendor_events e (getGPUVendor env e)))
      with (S (sessions (vendor_events e (getGPUVendor env e)))).
    now rewrite sessions_vendor.
Qed.

Lemma store_after_failure_settled env m t st :
  settled st -> initialized st && is_set (engine st) = false ->
  settled (store_after_failure env m t st).
Proof.
  intros Hs G. destruct (settled_not_ready st Hs G) as (He & Hi & Hn & Hv & _).
  destruct Hs as [Hs _]. split; [exact Hs|]. left.
  unfold store_after_failure.
  cbn [engine initialized trace initProgress systemInfo].
  repeat split; auto.
  - rewrite !sessions_app, Hn, sessions_attempt. reflexivity.
  - right. right. now exists t.
Qed.

Lemma store_after_unsupported_settled st :
  settled st -> initialized st && is_set (engine st) = false ->
  settled (store_after_unsupported st).
Proof.
  intros Hs G. destruct (settled_not_ready st Hs G) as (He & Hi & Hn & Hv & _).
  destruct Hs as [Hs _]. split; [exact Hs|]. left.
  unfold store_after_unsupported.
  cbn [engine initialized trace initProgress systemInfo].
  repeat split; auto.
  - rewrite sessions_app, Hn. reflexivity.
  - right. now left.
Qed.

Lemma initialize_closure_settled cs env m st :
  settled st ->
  settled (snd (initialize_closure (initialized st) (engine st) cs env m st)).
Proof.
  intro Hs. destruct (initialized st && is_set (engine st)) eqn:G.
  - now rewrite initialize_closure_ready by exact G.
  - destruct (initialize_closure_cases _ _ cs env m st G)
      as (b & st1 & (E & I & _) & Ht & Hf & ->).
    assert (Hs1 : settled st1).
    { destruct cs.
      - destruct (Ht eq_refl) as [_ ->]. exact Hs.
      - destruct (Hf eq_refl) as [Hc _].
        replace st1 with (snd (checkWebLLMSupport env st)) by now rewrite Hc.
        now apply checkWebLLMSupport_settled. }
    assert (G1 : initialized st1 && is_set (engine st1) = false)
      by now rewrite E, I.
    unfold after_probe.
    destruct b; [destruct (snd (CreateMLCEngine env m)) as [e|t]|]; cbn [snd].
    + now apply store_after_success_settled.
    + now apply store_after_failure_settled.
    + now apply store_after_unsupported_settled.
Qed.

Lemma mount_effect_cases env a m st :
  mount_effect env a m st =
  (Ret tt,
   if a && supported st
   then snd (initialize_closure (initialized st) (engine st) (supported st)
               env m (snd (checkWebLLMSupport env st)))
   else snd (checkWebLLMSupport env st)).
Proof.
  unfold mount_effect.
  destruct (checkWebLLMSupport_spec env st) as (b & st1 & Hc & _).
  unfold bind at 1. rewrite Hc. cbn [snd].
  destruct (a && supported st); [|reflexivity].
  unfold try_catch, bind.
  destruct (initialize_closure_step (initialized st) (engine st) (supported st)
              env m st1) as (b' & st' & -> & _).
  reflexivity.
Qed.

Lemma exec_settled env op st : settled st -> settled (exec env op st).
Proof.
  intro Hs. destruct op as [|m|prompt options| |a m]; cbn [exec].
  - now apply checkWebLLMSupport_settled.
  - unfold initialize. now apply initialize_closure_settled.
  - destruct (engine st) as [e|] eqn:He; [destruct (initialized st) eqn:Hi|].
    + rewrite (generate_ready _ _ _ _ _ He Hi). cbn [snd].
      apply settled_with_events; [|exact Hs].
      change (sessions (EvCompletionsCreate e (build_request prompt options) :: ?l))
        with (sessions l).
      apply sessions_failure.
    + rewrite generate_not_initialized by now right. exact Hs.
    + rewrite generate_not_initialized by now left. exact Hs.
  - rewrite resetChat_cases. destruct (engine st) as [e|]; [|exact Hs].
    cbn [snd]. apply settled_with_events; [|exact Hs].
    apply sessions_failure.
  - rewrite mount_effect_cases. cbn [snd].
    destruct (a && supported st); [|now apply checkWebLLMSupport_settled].
    pose proof (checkWebLLMSupport_settled env st Hs) as Hs1.
    destruct (checkWebLLMSupport_spec env st) as (b & st1 & Hc & (E & I & _)).
    rewrite Hc in *. cbn [snd] in *. rewrite <- E, <- I.
    now apply initialize_closure_settled.
Qed.

Lemma initial_store_settled : settled initial_store.
Proof.
  split; [reflexivity|]. left. repeat split. now left.
Qed.

Lemma reachable_settled ok st : reachable ok st -> settled st.
Proof.
  induction 1 as [|env op st _ _ IH].
  - exact initial_store_settled.
  - now apply exec_settled.
Qed.

(** X4.  In every store the provider can reach, the [supported] cell and
    [systemInfo.supported] hold the same value. *)
Theorem supported_cells_agree st :
  reachable any_env st -> supported st = si_supported (systemInfo st).
Proof. intro H. now destruct (reachable_settled _ _ H). Qed.

Lemma supported_cells_agree_witness :
  supported failed_store = true /\ si_supported (systemInfo failed_store) = true.
Proof.
  assert (R : reachable any_env failed_store)
    by (unfold failed_store; apply reachable_initialize;
        [exact I|apply reach_initial]).
  pose proof (supported_cells_agree failed_store R) as H.
  split; [vm_compute; reflexivity|]. rewrite <- H. vm_compute. reflexivity.
Defined.

(** ** [initialize]: success, refusal, the cached verdict, retry *)



(** X9.  When the provider is not Ready, [supported] is false and the probe
    answers false, [initialize] returns false without invoking the engine:
    [InitProgress] becomes (0, "WebLLM is not supported in this browser",
    error), and [supported] and the session cells stay as they were. *)
Theorem initialize_unsupported env m st :
  ~ Ready st ->
  supported st = false ->
  fst (checkWebLLMSupport env st) = Ret false ->
  fst (initialize env m st) = Ret false /\
  initProgress (snd (initialize env m st)) = unsupported_progress /\
  create_calls (new_events st (snd (initialize env m st))) = 0%nat /\
  supported (snd (initialize env m st)) = false /\
  engine (snd (initialize env m st)) = engine st /\
  initialized (snd (initialize env m st)) = initialized st.
Proof.
  intros Hn Hs Hp. unfold initialize. rewrite Hs.
  destruct (initialize_closure_cases _ _ false env m st (not_ready_guard _ Hn))
    as (b & st1 & _ & _ & Hf & ->).
  destruct (Hf eq_refl) as (Hc & E & I & S1 & _ & (evs & T & Q) & _).
  rewrite Hc in Hp. injection Hp as ->. unfold after_probe. cbn.
  repeat split; auto.
  rewrite (new_events_app st (store_after_unsupported st1)
             (evs ++ [EvSetInitProgress unsupported_progress]))
    by (cbn; rewrite T; now rewrite app_assoc).
  rewrite create_calls_app, (create_calls_quiet _ Q). reflexivity.
Qed.

Lemma initialize_unsupported_witness :
  ~ Ready initial_store /\
  fst (initialize browser_without_graphics Llama_3_1_8B_Instruct_q4f32_1_MLC
         initial_store) = Ret false /\
  initProgress (snd (initialize browser_without_graphics
                       Llama_3_1_8B_Instruct_q4f32_1_MLC initial_store))
    = unsupported_progress.
Proof.
  split; [exact initial_store_not_Ready|].
  assert (H := initialize_unsupported browser_without_graphics
                 Llama_3_1_8B_Instruct_q4f32_1_MLC initial_store
                 initial_store_not_Ready eq_refl eq_refl).
  split; apply H.
Defined.



(** X11.  A failed attempt can be retried through the same entry point:
    after an [initialize] whose session creation was rejected, a second
    [initialize] whose session creation resolves returns true, stores the
    session and invokes the session-creation entry point exactly once
    more. *)
Theorem initialize_retry_after_failure env1 m1 env2 m2 st t e :
  reachable any_env st ->
  snd (CreateMLCEngine env1 m1) = Throw t ->
  create_calls (new_events st (snd (initialize env1 m1 st))) = 1%nat ->
  snd (CreateMLCEngine env2 m2) = Ret e ->
  fst (initialize env2 m2 (snd (initialize env1 m1 st))) = Ret true /\
  engine (snd (initialize env2 m2 (snd (initialize env1 m1 st)))) = Some e /\
  Ready (snd (initialize env2 m2 (snd (initialize env1 m1 st)))) /\
  create_calls (trace (snd (initialize env2 m2 (snd (initialize env1 m1 st))))) =
    S (create_calls (trace (snd (initialize env1 m1 st)))).
Proof.
  intros Hr Ht Hc He. apply reachable_settled in Hr.
  assert (H1 : exists s1,
             snd (initialize env1 m1 st) = store_after_failure env1 m1 t s1 /\
             supported s1 = true /\
             initialized s1 && is_set (engine s1) = false).
  { unfold initialize in *.
    destruct (initialized st && is_set (engine st)) eqn:G.
    - rewrite initialize_closure_ready in Hc by exact G.
      cbn [snd] in Hc. rewrite new_events_same in Hc. discriminate Hc.
    - destruct (initialize_closure_cases _ _ (supported st) env1 m1 st G)
        as (b & s1 & (E & I & _ & (evs & T & Q) & _) & Htrue & Hfalse & Heq).
      rewrite Heq in *. unfold after_probe in *. destruct b.
      + rewrite Ht. exists s1. split; [reflexivity|]. split.
        * destruct (supported st) eqn:Hs.
          -- destruct (Htrue eq_refl) as [_ ->]. exact Hs.
          -- destruct (Hfalse eq_refl) as (_ & _ & _ & S1 & _). exact S1.
        * now rewrite E, I.
      + cbn [snd] in Hc.
        rewrite (new_events_app st (store_after_unsupported s1)
                   (evs ++ [EvSetInitProgress unsupported_progress])) in Hc
          by (cbn; rewrite T; now rewrite app_assoc).
        rewrite create_calls_app, (create_calls_quiet _ Q) in Hc.
        discriminate Hc. }
  destruct H1 as (s1 & -> & Hs & G).
  unfold initialize.
  change (supported (store_after_failure env1 m1 t s1)) with (supported s1).
  change (initialized (store_after_failure env1 m1 t s1)) with (initialized s1).
  change (engine (store_after_failure env1 m1 t s1)) with (engine s1).
  rewrite Hs, (initialize_closure_attempt _ _ env2 m2 _ G), He. cbn [fst snd].
  split; [reflexivity|]. split; [reflexivity|].
  split; [split; [reflexivity|discriminate]|].
  apply create_calls_success.
Qed.

Lemma initialize_retry_after_failure_witness :
  fst (initialize env_resolves Llama_3_1_8B_Instruct_q4f32_1_MLC failed_store)
    = Ret true /\
  create_calls
    (trace (snd (initialize env_resolves Llama_3_1_8B_Instruct_q4f32_1_MLC
                   failed_store))) = 2%nat.
Proof.
  assert (H := initialize_retry_after_failure env_oom
                 Llama_3_1_8B_Instruct_q4f32_1_MLC env_resolves
                 Llama_3_1_8B_Instruct_q4f32_1_MLC initial_store
                 (ErrorObject "OOM") 1%nat
                 (reach_initial any_env) eq_refl eq_refl eq_refl).
  destruct H as (H1 & _ & _ & H4).
  split; [exact H1|]. unfold failed_store. rewrite H4. vm_compute. reflexivity.
Defined.

(** ** [generate]: the answer of the engine *)

(** X12.  On a Ready provider, when the completion resolves with a
    non-empty [choices] array, the response is a success whose text is the
    content of the first choice (the empty string for an empty or [null]
    content); the other choices are not looked at, nothing is logged beyond
    the engine call, and no cell changes. *)
Theorem generate_uses_first_choice env prompt options st e c rest :
  engine st = Some e ->
  initialized st = true ->
  completions_create env e (build_request prompt options) = Ret (c :: rest) ->
  generate env prompt options st =
  (Ret {| gen_text := match message_content c with
                      | Some s => s
                      | None => ""
                      end;
          gen_status := gen_success;
          gen_error_message := None |},
   with_events st [EvCompletionsCreate e (build_request prompt options)]).
Proof.
  intros He Hi Hc. rewrite (generate_ready _ _ _ _ _ He Hi), Hc. reflexivity.
Qed.

Lemma generate_uses_first_choice_witness :
  fst (generate env_resolves "hi" no_options ready_store) =
  Ret {| gen_text := "hello"; gen_status := gen_success; gen_error_message := None |}.
Proof.
  assert (E : engine ready_store = Some 1%nat) by (vm_compute; reflexivity).
  assert (I1 : initialized ready_store = true) by (vm_compute; reflexivity).
  rewrite (generate_uses_first_choice env_resolves "hi" no_options ready_store
             1%nat {| message_content := Some "hello" |} [] E I1 eq_refl).
  reflexivity.
Defined.

(** X13.  On a Ready provider, when the completion resolves with an empty
    [choices] array, reading the first choice raises a [TypeError] inside
    the [try] block: [generate] does not throw but answers status [error]
    with the empty text and that error's message, and logs one
    [console.error] line. *)
Theorem generate_empty_choices env prompt options st e :
  engine st = Some e ->
  initialized st = true ->
  completions_create env e (build_request prompt options) = Ret [] ->
  generate env prompt options st =
  (Ret {| gen_text := "";
          gen_status := gen_error;
          gen_error_message := Some undefined_access_message |},
   with_events st
     [EvCompletionsCreate e (build_request prompt options);
      EvConsole console_error "Error generating text with WebLLM:"
        (ErrorObject undefined_access_message)]).
Proof.
  intros He Hi Hc. rewrite (generate_ready _ _ _ _ _ He Hi), Hc. reflexivity.
Qed.

Lemma generate_empty_choices_witness :
  gen_status (match fst (generate env_no_choices "hi" no_options ready_store) with
              | Ret r => r
              | Throw _ => not_initialized_response
              end) = gen_error /\
  initialized (snd (generate env_no_choices "hi" no_options ready_store)) = true.
Proof.
  assert (E : engine ready_store = Some 1%nat) by (vm_compute; reflexivity).
  assert (I1 : initialized ready_store = true) by (vm_compute; reflexivity).
  rewrite (generate_empty_choices env_no_choices "hi" no_options ready_store
             1%nat E I1 eq_refl).
  split; [reflexivity|exact I1].
Defined.

(** X14.  On a Ready provider, when the completion rejects with [t], the
    response has status [error], the empty text, and as error the message
    of [t] when [t] is an [Error], ["Unknown error generating text"]
    otherwise; one [console.error] line carrying [t] follows the engine
    call in the log. *)
Theorem generate_engine_rejection env prompt options st e t :
  engine st = Some e ->
  initialized st = true ->
  completions_create env e (build_request prompt options) = Throw t ->
  generate env prompt options st =
  (Ret {| gen_text := "";
          gen_status := gen_error;
          gen_error_message :=
            Some match t with
                 | ErrorObject msg => msg
                 | NonError _ => "Unknown error generating text"
                 end |},
   with_events st
     [EvCompletionsCreate e (build_request prompt options);
      EvConsole console_error "Error generating text with WebLLM:" t]).
Proof.
  intros He Hi Hc. rewrite (generate_ready _ _ _ _ _ He Hi), Hc.
  destruct t; reflexivity.
Qed.

Lemma generate_engine_rejection_witness :
  fst (generate env_completion_fails "hi" no_options ready_store) =
  Ret {| gen_text := ""; gen_status := gen_error;
         gen_error_message := Some "context overflow" |}.
Proof.
  assert (E : engine ready_store = Some 1%nat) by (vm_compute; reflexivity).
  assert (I1 : initialized ready_store = true) by (vm_compute; reflexivity).
  rewrite (generate_engine_rejection env_completion_fails "hi" no_options
             ready_store 1%nat (ErrorObject "context overflow") E I1 eq_refl).
  reflexivity.
Defined.

(** X15.  [generate] keeps no history: on a Ready provider two calls in a
    row each send a request built from their own prompt and options only,
    a two-message list of the fixed system message and that prompt, so the
    second request is the one a first call with the same arguments would
    have sent. *)
Theorem generate_keeps_no_history env1 env2 p1 o1 p2 o2 st e :
  engine st = Some e ->
  initialized st = true ->
  exists f1 f2,
    new_events st
      (snd (generate env2 p2 o2 (snd (generate env1 p1 o1 st)))) =
    (EvCompletionsCreate e (build_request p1 o1)
       :: failure_events "Error generating text with WebLLM:" f1)
    ++ (EvCompletionsCreate e (build_request p2 o2)
          :: failure_events "Error generating text with WebLLM:" f2) /\
    new_events st (snd (generate env2 p2 o2 st)) =
    EvCompletionsCreate e (build_request p2 o2)
      :: failure_events "Error generating text with WebLLM:" f2 /\
    req_messages (build_request p2 o2) =
      [system_message; {| role := user; content := p2 |}].
Proof.
  intros He Hi. rewrite (generate_ready env1 _ _ _ _ He Hi). cbn [snd].
  rewrite (generate_ready env2 p2 o2 (with_events st _) e) by (cbn; assumption).
  rewrite (generate_ready env2 p2 o2 st e He Hi). cbn [snd].
  eexists. eexists. split; [|split; [|reflexivity]].
  - apply new_events_app. unfold with_events. cbn [trace].
    rewrite <- app_assoc. reflexivity.
  - apply new_events_app. reflexivity.
Qed.

Lemma generate_keeps_no_history_witness :
  new_events ready_store
    (snd (generate env_resolves "second" no_options
            (snd (generate env_resolves "first" no_options ready_store)))) =
  [EvCompletionsCreate 1%nat (build_request "first" no_options);
   EvCompletionsCreate 1%nat (build_request "second" no_options)].
Proof.
  assert (E : engine ready_store = Some 1%nat) by (vm_compute; reflexivity).
  assert (I1 : initialized ready_store = true) by (vm_compute; reflexivity).
  destruct (generate_keeps_no_history env_resolves env_resolves
              "first" no_options "second" no_options ready_store 1%nat E I1)
    as (f1 & f2 & H & _).
  vm_compute. reflexivity.
Defined.

(** ** The mount effect *)

(** X16.  When [autoInitialize] is off, or when the [supported] cell the
    effect captured is false (as on the first run after mounting), the
    effect only runs the probe: it does not throw and the engine is not
    invoked, whatever the probe of this run answers. *)
Theorem mount_effect_only_probes env a m st :
  a = false \/ supported st = false ->
  mount_effect env a m st = (Ret tt, snd (checkWebLLMSupport env st)) /\
  create_calls (trace (snd (mount_effect env a m st))) = create_calls (trace st).
Proof.
  intro H. rewrite mount_effect_cases.
  assert (G : a && supported st = false)
    by (destruct H as [->| ->]; [reflexivity|apply andb_false_r]).
  rewrite G. split; [reflexivity|]. cbn [snd].
  destruct (checkWebLLMSupport_spec env st)
    as (b & st1 & -> & (_ & _ & _ & _ & (evs & T & Q) & _)).
  cbn [snd]. rewrite T, create_calls_app, (create_calls_quiet _ Q). lia.
Qed.

Lemma mount_effect_only_probes_witness :
  supported initial_store = false /\
  supported (snd (mount_effect env_resolves true Llama_3_1_8B_Instruct_q4f32_1_MLC
                    initial_store)) = true /\
  create_calls
    (trace (snd (mount_effect env_resolves true Llama_3_1_8B_Instruct_q4f32_1_MLC
                   initial_store))) = 0%nat.
Proof.
  split; [reflexivity|].
  destruct (mount_effect_only_probes env_resolves true
              Llama_3_1_8B_Instruct_q4f32_1_MLC initial_store
              (or_intror eq_refl)) as [H1 H2].
  split; [rewrite H1; vm_compute; reflexivity|].
  rewrite H2. reflexivity.
Defined.

(** X17.  When [autoInitialize] is on, the captured [supported] cell is
    true and the provider is not Ready, the effect runs the probe and then
    starts the engine attempt on the captured verdict: the session-creation
    entry point is invoked exactly once, also when the probe of this very
    run has just answered false. *)
Theorem mount_effect_uses_captured_verdict env m st :
  supported st = true ->
  ~ Ready st ->
  mount_effect env true m st =
    (Ret tt, snd (after_probe env m true (snd (checkWebLLMSupport env st)))) /\
  create_calls (new_events st (snd (mount_effect env true m st))) = 1%nat.
Proof.
  intros Hs Hn. rewrite mount_effect_cases, Hs. cbn [andb snd].
  destruct (checkWebLLMSupport_spec env st)
    as (b & st1 & -> & (E & I & _ & _ & (evs & T & Q) & _)).
  cbn [snd].
  rewrite initialize_closure_attempt by now apply not_ready_guard.
  unfold after_probe. split; [reflexivity|].
  destruct (snd (CreateMLCEngine env m)) as [e|t]; cbn [snd].
  - rewrite (new_events_app st (store_after_success env m e st1)
               (evs ++ attempt_events m (fst (CreateMLCEngine env m))
                  ++ EvSessionCreated e :: EvSetInitProgress done_progress
                       :: vendor_events e (getGPUVendor env e)))
      by (cbn; rewrite T; now rewrite <- app_assoc).
    rewrite !create_calls_app, (create_calls_quiet _ Q), create_calls_attempt.
    change (create_calls (EvSessionCreated e :: EvSetInitProgress done_progress
                            :: vendor_events e (getGPUVendor env e)))
      with (create_calls (vendor_events e (getGPUVendor env e))).
    now rewrite create_calls_vendor.
  - rewrite (new_events_app st (store_after_failure env m t st1)
               (evs ++ attempt_events m (fst (CreateMLCEngine env m))
                  ++ [EvConsole console_error "Failed to initialize WebLLM:" t;
                      EvSetInitProgress (failed_progress t)]))
      by (cbn; rewrite T; now rewrite <- app_assoc).
    rewrite !create_calls_app, (create_calls_quiet _ Q), create_calls_attempt.
    reflexivity.
Qed.

Lemma mount_effect_uses_captured_verdict_witness :
  supported failed_store = true /\
  ~ Ready failed_store /\
  fst (checkWebLLMSupport browser_without_wasm failed_store) = Ret false /\
  create_calls
    (new_events failed_store
       (snd (mount_effect browser_without_wasm true
               Llama_3_1_8B_Instruct_q4f32_1_MLC failed_store))) = 1%nat.
Proof.
  assert (Hs : supported failed_store = true) by (vm_compute; reflexivity).
  assert (Hn : ~ Ready failed_store).
  { intros [H _]. vm_compute in H. discriminate H. }
  split; [exact Hs|]. split; [exact Hn|]. split; [vm_compute; reflexivity|].
  apply (mount_effect_uses_captured_verdict browser_without_wasm
           Llama_3_1_8B_Instruct_q4f32_1_MLC failed_store Hs Hn).
Defined.

(** ** The [InitProgress] state machine *)

Lemma progress_states_app a b :
  progress_states (a ++ b) = progress_states a ++ progress_states b.
Proof.
  induction a as [|ev a IH]; [reflexivity|].
  cbn [app progress_states]. destruct ev; auto. cbn [app]. now f_equal.
Qed.

Lemma progress_states_quiet evs : quiet evs -> progress_states evs = [].
Proof.
  induction evs as [|ev evs IH]; intro Hq; [reflexivity|].
  assert (Hc : is_console ev = true) by (apply Hq; now left).
  destruct ev; try discriminate Hc. cbn. apply IH.
  intros ev' Hin. apply Hq. now right.
Qed.

Lemma progress_states_attempt m reports :
  progress_states (attempt_events m reports) =
  starting_progress :: map relayed reports.
Proof.
  unfold attempt_events. cbn. f_equal.
  induction reports as [|r reports IH]; [reflexivity|].
  cbn. now f_equal.
Qed.

Lemma progress_states_vendor e a : progress_states (vendor_events e a) = [].
Proof. destruct a; reflexivity. Qed.

(** X18.  The [InitProgress] values one [initialize] call writes, on a
    provider that is not Ready.  If the engine is not invoked, the single
    value (0, not supported, error).  If it is: (0, initializing) first,
    then one [initializing] value per engine report with the report's
    progress and text, and last (1, success) when session creation resolved
    or (0, failure text, error) when it rejected.  So every call leaves the
    status at [success] or [error], and the stored [InitProgress] is the
    last value written. *)
Theorem initialize_progress_states env m st :
  ~ Ready st ->
  progress_states (new_events st (snd (initialize env m st))) =
    (if Nat.eqb (create_calls (new_events st (snd (initialize env m st)))) 0
     then [unsupported_progress]
     else starting_progress
            :: map relayed (fst (CreateMLCEngine env m))
            ++ [final_progress (snd (CreateMLCEngine env m))]) /\
  initProgress (snd (initialize env m st)) =
    last (progress_states (new_events st (snd (initialize env m st))))
         (initProgress st) /\
  (status (initProgress (snd (initialize env m st))) = success \/
   status (initProgress (snd (initialize env m st))) = error).
Proof.
  intro Hn. unfold initialize.
  destruct (initialize_closure_cases _ _ (supported st) env m st
              (not_ready_guard _ Hn))
    as (b & st1 & (_ & _ & _ & (evs & T & Q) & _) & _ & _ & ->).
  unfold after_probe.
  destruct b; [destruct (snd (CreateMLCEngine env m)) as [e|t]|]; cbn [snd].
  - rewrite (new_events_app st (store_after_success env m e st1)
               (evs ++ attempt_events m (fst (CreateMLCEngine env m))
                  ++ EvSessionCreated e :: EvSetInitProgress done_progress
                       :: vendor_events e (getGPUVendor env e)))
      by (cbn; rewrite T; now rewrite <- app_assoc).
    rewrite !create_calls_app, !progress_states_app.
    rewrite (create_calls_quiet _ Q), (progress_states_quiet _ Q).
    rewrite create_calls_attempt, progress_states_attempt.
    cbn [app Nat.add Nat.eqb progress_states final_progress].
    rewrite progress_states_vendor.
    split; [reflexivity|]. split; [|now left].
    rewrite app_comm_cons, last_last. reflexivity.
  - rewrite (new_events_app st (store_after_failure env m t st1)
               (evs ++ attempt_events m (fst (CreateMLCEngine env m))
                  ++ [EvConsole console_error "Failed to initialize WebLLM:" t;
                      EvSetInitProgress (failed_progress t)]))
      by (cbn; rewrite T; now rewrite <- app_assoc).
    rewrite !create_calls_app, !progress_states_app.
    rewrite (create_calls_quiet _ Q), (progress_states_quiet _ Q).
    rewrite create_calls_attempt, progress_states_attempt.
    cbn [app Nat.add Nat.eqb progress_states final_progress].
    split; [reflexivity|]. split; [|now right].
    rewrite app_comm_cons, last_last. reflexivity.
  - rewrite (new_events_app st (store_after_unsupported st1)
               (evs ++ [EvSetInitProgress unsupported_progress]))
      by (cbn; rewrite T; now rewrite app_assoc).
    rewrite !create_calls_app, !progress_states_app.
    rewrite (create_calls_quiet _ Q), (progress_states_quiet _ Q).
    cbn. split; [reflexivity|]. split; [reflexivity|now right].
Qed.

Lemma initialize_progress_states_witness :
  ~ Ready initial_store /\
  progress_states
    (new_events initial_store
       (snd (initialize env_resolves Llama_3_1_8B_Instruct_q4f32_1_MLC
               initial_store))) =
  [starting_progress; relayed report_03; relayed report_09; done_progress].
Proof.
  split; [exact initial_store_not_Ready|].
  destruct (initialize_progress_states env_resolves
              Llama_3_1_8B_Instruct_q4f32_1_MLC initial_store
              initial_store_not_Ready) as [H _].
  rewrite H. vm_compute. reflexivity.
Defined.

(** ** Calls through the callback of any render *)

Lemma generate_latest_render env prompt options st :
  generate env prompt options st =
  generate_closure (engine st) (initialized st) env prompt options st.
Proof.
  unfold generate, generate_closure.
  destruct (engine st); [destruct (initialized st)|]; reflexivity.
Qed.

Lemma resetChat_latest_render env st :
  resetChat env st = resetChat_closure (engine st) env st.
Proof. unfold resetChat, resetChat_closure. destruct (engine st); reflexivity. Qed.

Lemma exec_latest_render env op st :
  exec env op st =
  exec_closure (initialized st) (engine st) (supported st) env op st.
Proof.
  destruct op; cbn [exec exec_closure]; try reflexivity.
  - now rewrite generate_latest_render.
  - now rewrite resetChat_latest_render.
Qed.

Lemma reachable_any_callback_latest ok st :
  reachable ok st -> reachable_any_callback st.
Proof.
  induction 1 as [|env op st _ _ IH]; [constructor|].
  rewrite exec_latest_render. now constructor.
Qed.

Lemma generate_closure_frame ce ci env prompt options st :
  exists r st',
    generate_closure ce ci env prompt options st = (Ret r, st') /\
    same_cells st' st /\
    exists evs, trace st' = trace st ++ evs /\
                sessions evs = 0%nat /\ create_calls evs = 0%nat.
Proof.
  destruct ce as [e|]; [destruct ci|]; cbn [generate_closure negb].
  - unfold call_completions_create, first_choice_content.
    destruct st as [e0 i0 s0 p0 si0 tr0]. run_js.
    destruct (completions_create env e (build_request prompt options))
      as [[|c l]|t]; cbn;
      eexists; eexists; (split; [reflexivity|]); (split; [repeat split|]);
      eexists; (split; [cbn; rewrite <- ?app_assoc; reflexivity|]);
      split; reflexivity.
  - exists not_initialized_response, st. split; [reflexivity|].
    split; [repeat split|]. exists []. now rewrite app_nil_r.
  - exists not_initialized_response, st. split; [reflexivity|].
    split; [repeat split|]. exists []. now rewrite app_nil_r.
Qed.

Lemma resetChat_closure_frame ce env st :
  exists st',
    resetChat_closure ce env st = (Ret tt, st') /\
    same_cells st' st /\
    exists evs, trace st' = trace st ++ evs /\
                sessions evs = 0%nat /\ create_calls evs = 0%nat.
Proof.
  destruct ce as [e|]; cbn [resetChat_closure].
  - unfold call_resetChat. destruct st as [e0 i0 s0 p0 si0 tr0]. run_js.
    destruct (engine_resetChat env e) as [[]|t]; cbn;
      eexists; (split; [reflexivity|]); (split; [repeat split|]);
      eexists; (split; [cbn; rewrite <- ?app_assoc; reflexivity|]);
      split; reflexivity.
  - exists st. split; [reflexivity|].
    split; [repeat split|]. exists []. now rewrite app_nil_r.
Qed.

Lemma mount_effect_closure_cases ci ce cs env a m st :
  mount_effect_closure ci ce cs env a m st =
  (Ret tt,
   if a && cs
   then snd (initialize_closure ci ce cs env m (snd (checkWebLLMSupport env st)))
   else snd (checkWebLLMSupport env st)).
Proof.
  unfold mount_effect_closure.
  destruct (checkWebLLMSupport_spec env st) as (b & st1 & Hc & _).
  unfold bind at 1. rewrite Hc. cbn [snd].
  destruct (a && cs); [|reflexivity].
  unfold try_catch, bind.
  destruct (initialize_closure_step ci ce cs env m st1) as (b' & st' & -> & _).
  reflexivity.
Qed.

Lemma between_calls_frame st st' evs :
  same_cells st' st -> trace st' = trace st ++ evs -> sessions evs = 0%nat ->
  between_calls st -> between_calls st'.
Proof.
  intros (E & I & S1 & P & SI) T H0 (Hs & Hle & Hd).
  unfold between_calls.
  rewrite E, I, S1, P, SI, T, sessions_app, create_calls_app, H0, Nat.add_0_r.
  split; [exact Hs|]. split; [lia|exact Hd].
Qed.

Lemma checkWebLLMSupport_between_calls env st :
  between_calls st -> between_calls (snd (checkWebLLMSupport env st)).
Proof.
  intros (Hs & Hle & Hd).
  destruct (checkWebLLMSupport_spec env st) as (b & st1 & Heq & Hp).
  destruct (checkWebLLMSupport_writes env st)
    as (b' & st1' & Heq' & S1 & S2 & _).
  rewrite Heq in Heq'. injection Heq' as <- <-. rewrite Heq. cbn [snd].
  destruct Hp as (E & I & _ & P & (evs & T & Q) & V & _).
  unfold between_calls.
  rewrite E, I, P, T, sessions_app, create_calls_app.
  rewrite (sessions_quiet _ Q), (create_calls_quiet _ Q), !Nat.add_0_r.
  split; [congruence|]. split; [exact Hle|].
  destruct Hd as [(He & Hi & Hn & Hv & Hp)|Hd]; [left|right; exact Hd].
  repeat split; auto. destruct V; congruence.
Qed.

Lemma final_progress_value_done : final_progress_value done_progress.
Proof. now left. Qed.

Lemma store_after_success_between_calls env m e st :
  between_calls st -> between_calls (store_after_success env m e st).
Proof.
  intros (Hs & Hle & Hd). unfold between_calls, store_after_success.
  cbn [supported systemInfo engine initialized trace initProgress].
  rewrite !sessions_app, !create_calls_app, sessions_attempt, create_calls_attempt.
  change (sessions (EvSessionCreated e :: EvSetInitProgress done_progress
                      :: vendor_events e (getGPUVendor env e)))
    with (S (sessions (vendor_events e (getGPUVendor env e)))).
  change (create_calls (EvSessionCreated e :: EvSetInitProgress done_progress
                          :: vendor_events e (getGPUVendor env e)))
    with (create_calls (vendor_events e (getGPUVendor env e))).
  rewrite sessions_vendor, create_calls_vendor.
  split; [unfold vendor_info; destruct (getGPUVendor env e); exact Hs|].
  split; [lia|]. right.
  repeat split; try discriminate; [lia|apply final_progress_value_done].
Qed.

Lemma store_after_failure_between_calls env m t st :
  between_calls st -> between_calls (store_after_failure env m t st).
Proof.
  intros (Hs & Hle & Hd). unfold between_calls, store_after_failure.
  cbn [supported systemInfo engine initialized trace initProgress].
  rewrite !sessions_app, !create_calls_app, sessions_attempt, create_calls_attempt.
  cbn [sessions create_calls filter is_session_created is_create List.length].
  rewrite !Nat.add_0_r.
  split; [exact Hs|]. split; [lia|].
  destruct Hd as [(He & Hi & Hn & Hv & _)|(He & Hi & Hn & _)]; [left|right].
  - repeat split; auto. right. right. now exists t.
  - repeat split; auto. right. right. now exists t.
Qed.

Lemma store_after_unsupported_between_calls st :
  between_calls st -> between_calls (store_after_unsupported st).
Proof.
  intros (Hs & Hle & Hd). unfold between_calls, store_after_unsupported.
  cbn [supported systemInfo engine initialized trace initProgress].
  rewrite sessions_app, create_calls_app.
  cbn [sessions create_calls filter is_session_created is_create List.length].
  rewrite !Nat.add_0_r.
  split; [exact Hs|]. split; [exact Hle|].
  destruct Hd as [(He & Hi & Hn & Hv & _)|(He & Hi & Hn & _)]; [left|right].
  - repeat split; auto. right. now left.
  - repeat split; auto. right. now left.
Qed.

Lemma initialize_closure_between_calls ci ce cs env m st :
  between_calls st ->
  between_calls (snd (initialize_closure ci ce cs env m st)).
Proof.
  intro Hs. destruct (ci && is_set ce) eqn:G.
  - now rewrite initialize_closure_ready by exact G.
  - destruct (initialize_closure_cases ci ce cs env m st G)
      as (b & st1 & _ & Ht & Hf & ->).
    assert (Hs1 : between_calls st1).
    { destruct cs.
      - destruct (Ht eq_refl) as [_ ->]. exact Hs.
      - destruct (Hf eq_refl) as [Hc _].
        replace st1 with (snd (checkWebLLMSupport env st)) by now rewrite Hc.
        now apply checkWebLLMSupport_between_calls. }
    unfold after_probe.
    destruct b; [destruct (snd (CreateMLCEngine env m)) as [e|t]|]; cbn [snd].
    + now apply store_after_success_between_calls.
    + now apply store_after_failure_between_calls.
    + now apply store_after_unsupported_between_calls.
Qed.

Lemma exec_closure_between_calls ci ce cs env op st :
  between_calls st -> between_calls (exec_closure ci ce cs env op st).
Proof.
  intro Hs. destruct op as [|m|prompt options| |a m]; cbn [exec_closure].
  - now apply checkWebLLMSupport_between_calls.
  - now apply initialize_closure_between_calls.
  - destruct (generate_closure_frame ce ci env prompt options st)
      as (r & st' & -> & Hc & evs & T & H0 & _).
    cbn [snd]. eapply between_calls_frame; eauto.
  - destruct (resetChat_closure_frame ce env st)
      as (st' & -> & Hc & evs & T & H0 & _).
    cbn [snd]. eapply between_calls_frame; eauto.
  - rewrite mount_effect_closure_cases. cbn [snd].
    destruct (a && cs).
    + now apply initialize_closure_between_calls,
        checkWebLLMSupport_between_calls.
    + now apply checkWebLLMSupport_between_calls.
Qed.

Lemma reachable_any_callback_between_calls st :
  reachable_any_callback st -> between_calls st.
Proof.
  induction 1 as [|ci ce cs env op st _ IH].
  - split; [reflexivity|]. split; [apply Nat.le_refl|].
    left. repeat split. now left.
  - now apply exec_closure_between_calls.
Qed.

Lemma reachable_any_callback_initialize ci ce cs env m st :
  reachable_any_callback st ->
  reachable_any_callback (snd (initialize_closure ci ce cs env m st)).
Proof. intro H. exact (any_step ci ce cs env (OpInitialize m) st H). Qed.

Lemma stale_retry_store_reachable : reachable_any_callback stale_retry_store.
Proof.
  unfold stale_retry_store. apply reachable_any_callback_initialize.
  apply (reachable_any_callback_latest any_env). exact ready_store_reachable.
Qed.

(** X5.  Between two calls, through the callbacks of whatever renders they
    were made, [InitProgress] is never left at [initializing]: it is
    (1, success), or it has progress 0 with status [not-started] or [error].
    Status [success] implies a stored session with [initialized] set, and a
    provider whose [initialized] is false shows progress 0. *)
Theorem initProgress_between_calls st :
  reachable_any_callback st ->
  status (initProgress st) <> initializing /\
  (initProgress st = done_progress \/
   progress (initProgress st) = 0%Q /\
   (status (initProgress st) = not_started \/
    status (initProgress st) = error)) /\
  (status (initProgress st) = success -> Ready st) /\
  (initialized st = false ->
   progress (initProgress st) = 0%Q /\
   (status (initProgress st) = not_started \/
    status (initProgress st) = error)).
Proof.
  intro H. destruct (reachable_any_callback_between_calls _ H) as (_ & _ & Hd).
  assert (Hidle : forall p, idle_progress p ->
            progress p = 0%Q /\ (status p = not_started \/ status p = error)).
  { intros p [->|[->|[t ->]]]; cbn; auto. }
  assert (Hnot : forall p,
            progress p = 0%Q /\ (status p = not_started \/ status p = error) ->
            status p <> initializing /\ status p <> success).
  { intros p [_ [S0|S0]]; rewrite S0; split; discriminate. }
  destruct Hd as [(_ & Hi & _ & _ & Hp)|(He & Hi & _ & Hp)].
  - pose proof (Hidle _ Hp) as H0. destruct (Hnot _ H0) as [N1 N2].
    split; [exact N1|]. split; [now right|]. split; [intro; contradiction|auto].
  - split; [|split; [|split]].
    + destruct Hp as [->|[->|[t ->]]]; discriminate.
    + destruct Hp as [->|[->|[t ->]]]; [now left| |]; right; cbn; auto.
    + intros _. split; assumption.
    + rewrite Hi. discriminate.
Qed.

Lemma initProgress_between_calls_witness :
  initialized stale_retry_store = true /\
  status (initProgress stale_retry_store) = error /\
  status (initProgress stale_retry_store) <> initializing.
Proof.
  split; [vm_compute; reflexivity|]. split; [vm_compute; reflexivity|].
  apply (initProgress_between_calls stale_retry_store).
  exact stale_retry_store_reachable.
Defined.

(** X6.  Between two calls, through the callbacks of whatever renders they
    were made: the provider is Ready exactly when the engine has resolved a
    session creation; [engine] is [null] exactly when [initialized] is
    false; a recorded [gpuVendor] implies that the provider is Ready; and
    the engine has resolved no more session creations than were invoked. *)
Theorem session_resolved_iff_ready st :
  reachable_any_callback st ->
  ((1 <= sessions (trace st))%nat <-> Ready st) /\
  (engine st = None <-> initialized st = false) /\
  (gpuVendor (systemInfo st) <> None -> Ready st) /\
  (sessions (trace st) <= create_calls (trace st))%nat.
Proof.
  intro H. destruct (reachable_any_callback_between_calls _ H) as (_ & Hle & Hd).
  unfold Ready.
  destruct Hd as [(He & Hi & Hn & Hv & _)|(He & Hi & Hn & _)].
  - rewrite He, Hi, Hn. split; [|split; [|split]].
    + split; [lia|]. intros [D _]. discriminate D.
    + split; reflexivity.
    + intro Hv'. now contradiction Hv'.
    + lia.
  - rewrite Hi. split; [|split; [|split]].
    + split; [intros _; split; [reflexivity|exact He]|intros _; exact Hn].
    + split; [intro D; now contradiction He|discriminate].
    + intros _. split; [reflexivity|exact He].
    + exact Hle.
Qed.

Lemma session_resolved_iff_ready_witness :
  sessions (trace stale_retry_store) = 1%nat /\
  create_calls (trace stale_retry_store) = 2%nat /\
  Ready stale_retry_store.
Proof.
  assert (S1 : sessions (trace stale_retry_store) = 1%nat)
    by (vm_compute; reflexivity).
  split; [exact S1|]. split; [vm_compute; reflexivity|].
  apply (proj1 (session_resolved_iff_ready stale_retry_store
                  stale_retry_store_reachable)).
  rewrite S1. apply Nat.le_refl.
Defined.

Lemma initialize_closure_keeps_ready ci ce cs env m st :
  Ready st -> Ready (snd (initialize_closure ci ce cs env m st)).
Proof.
  intro HR. destruct (ci && is_set ce) eqn:G.
  - now rewrite initialize_closure_ready by exact G.
  - destruct (initialize_closure_cases ci ce cs env m st G)
      as (b & st1 & (E & I & _) & _ & _ & ->).
    unfold after_probe, Ready in *.
    destruct b; [destruct (snd (CreateMLCEngine env m)) as [e|t]|]; cbn.
    + split; [reflexivity|discriminate].
    + now rewrite E, I.
    + now rewrite E, I.
Qed.

(** X7.  A Ready provider stays Ready under every operation (the probe,
    [initialize], [generate], [resetChat], the mount effect), through the
    callback of whatever render, whatever the browser and the engine
    answer: a session is never dropped.  The stored session is kept and the
    session-creation entry point is not invoked when the operation is the
    probe, [generate] or [resetChat], or when its callback captured a Ready
    render. *)
Theorem ready_is_permanent ci ce cs env op st :
  Ready st ->
  Ready (exec_closure ci ce cs env op st) /\
  (starts_no_attempt op = true \/ ci && is_set ce = true ->
   engine (exec_closure ci ce cs env op st) = engine st /\
   create_calls (trace (exec_closure ci ce cs env op st)) =
     create_calls (trace st)).
Proof.
  intro HR.
  assert (Hkeep : forall st', engine st' = engine st ->
            initialized st' = initialized st -> Ready st').
  { intros st' E I. unfold Ready. rewrite E, I. exact HR. }
  assert (Hprobe : Ready (snd (checkWebLLMSupport env st)) /\
                   engine (snd (checkWebLLMSupport env st)) = engine st /\
                   create_calls (trace (snd (checkWebLLMSupport env st))) =
                   create_calls (trace st)).
  { destruct (checkWebLLMSupport_spec env st)
      as (b & st1 & -> & (E & I & _ & _ & (evs & T & Q) & _)).
    cbn [snd]. repeat split; try apply Hkeep; auto.
    rewrite T, create_calls_app, (create_calls_quiet _ Q). lia. }
  destruct Hprobe as (R1 & E1 & C1).
  destruct op as [|m|prompt options| |a m]; cbn [exec_closure starts_no_attempt].
  - split; [exact R1|]. intros _. now split.
  - split; [now apply initialize_closure_keeps_ready|].
    intros [D|G]; [discriminate D|].
    rewrite initialize_closure_ready by exact G. now split.
  - destruct (generate_closure_frame ce ci env prompt options st)
      as (r & st' & -> & (E & I & _) & evs & T & _ & C0).
    cbn [snd]. split; [now apply Hkeep|]. intros _. split; [exact E|].
    rewrite T, create_calls_app, C0. lia.
  - destruct (resetChat_closure_frame ce env st)
      as (st' & -> & (E & I & _) & evs & T & _ & C0).
    cbn [snd]. split; [now apply Hkeep|]. intros _. split; [exact E|].
    rewrite T, create_calls_app, C0. lia.
  - rewrite mount_effect_closure_cases. cbn [snd].
    destruct (a && cs).
    + split; [now apply initialize_closure_keeps_ready|].
      intros [D|G]; [discriminate D|].
      rewrite initialize_closure_ready by exact G. now split.
    + split; [exact R1|]. intros [D|G]; [discriminate D|now split].
Qed.

Lemma ready_is_permanent_witness :
  Ready ready_store /\
  Ready (exec_closure false None false env_oom
           (OpInitialize Llama_3_1_8B_Instruct_q4f32_1_MLC) ready_store) /\
  engine (exec_closure true (Some 1%nat) true browser_without_wasm
            (OpMountEffect true Llama_3_1_8B_Instruct_q4f32_1_MLC) ready_store)
    = engine ready_store.
Proof.
  split; [exact ready_store_Ready|]. split.
  - apply (ready_is_permanent false None false env_oom
             (OpInitialize Llama_3_1_8B_Instruct_q4f32_1_MLC) ready_store).
    exact ready_store_Ready.
  - apply (ready_is_permanent true (Some 1%nat) true browser_without_wasm
             (OpMountEffect true Llama_3_1_8B_Instruct_q4f32_1_MLC) ready_store
             ready_store_Ready).
    right. reflexivity.
Defined.
